(** * The AviSynth+ C API dynamic loader: reference-counted loading,
      version negotiation and error reporting.

    A shallow embedding of [src/avs_c_api_loader.cpp] (class
    [avisynth_c_api_loader] of [avs_c_api_loader.hpp]) and the properties
    of its state machine.

    - Pointers ([void*], function pointers) are integers, [0] being
      [nullptr].
    - [std::atomic<long> ref_count_] is an integer that wraps around at the
      width of [long] on the platform.
    - [avisynth_c_api_pointers], a struct with one function pointer per
      entry of [avs_c_api_functions.inc], is a finite map from member name
      to address; a member that holds [nullptr] is an absent key, so the
      value-initialised struct [{}] is the empty map.
    - The host library (what [dlopen]/[dlsym] and the two bootstrap entry
      points answer) is a record that each call receives.
    - The calls to the platform shim and the calls into the loaded
      library ([avs_get_env_property], [avs_check_version], [avs_at_exit])
      are recorded in a log, newest first.
    - A [std::string_view] is its characters together with the characters
      that follow them in the buffer it points into: [data()] handed to a
      [const char*] parameter reads on to that buffer's NUL.
    - A call through a function pointer that holds [nullptr] has no defined
      behaviour: the functions that make such calls return [option], and
      [None] stands for it. *)

From Stdlib Require Import ZArith String Ascii DecimalString.
From stdpp Require Import base decidable option list gmap strings.

Local Open Scope Z_scope.

(** ** Platform *)

Inductive Platform := Windows | Apple | Linux.

(** [AVS_LIB_NAME], as the error message of [load_functions] spells it. *)
Definition AVS_LIB_NAME (p : Platform) : string :=
  match p with
  | Windows => "avisynth.dll"
  | Apple => "libavisynth.dylib"
  | Linux => "libavisynth.so"
  end.

(** Width of [long]: 32 bits on Windows (LLP64), 64 on the [dlfcn]
    platforms, taken to be LP64. *)
Definition long_bits (p : Platform) : Z :=
  match p with Windows => 32 | _ => 64 end.

Definition LONG_MAX (p : Platform) : Z := 2 ^ (long_bits p - 1) - 1.

(** Two's complement wrap-around of [std::atomic<long>] arithmetic. *)
Definition wrap_long (p : Platform) (z : Z) : Z :=
  (z + 2 ^ (long_bits p - 1)) mod 2 ^ long_bits p - 2 ^ (long_bits p - 1).

(** [static_cast<int>] of the [size_t] that [avs_get_env_property] returns. *)
Definition to_int (z : Z) : Z := (z + 2 ^ 31) mod 2 ^ 32 - 2 ^ 31.

(** ** Strings *)

(** The C string a [const char*] designates: the characters before the
    first NUL. *)
Fixpoint c_str (s : string) : string :=
  match s with
  | EmptyString => EmptyString
  | String c r => if Ascii.eqb c zero then EmptyString else String c (c_str r)
  end.

Fixpoint string_take (n : nat) (s : string) : string :=
  match n, s with
  | S n', String c r => String c (string_take n' r)
  | _, _ => EmptyString
  end.

(** [%d] of [snprintf]. *)
Definition string_of_Z (z : Z) : string := NilZero.string_of_int (Z.to_int z).

(** [snprintf(buf, size, ...)] followed by reading [buf] as a C string:
    at most [size - 1] characters of the formatted text are kept. *)
Definition snprintf (size : nat) (formatted : string) : string :=
  string_take (size - 1) (c_str formatted).

(** The bytes [strncpy(dest, src, n)] writes to [dest[0..n)]: the
    characters of [src] up to its first NUL, then NUL padding. *)
Fixpoint strncpy (src : string) (n : nat) : list ascii :=
  match n with
  | O => []
  | S n' =>
      match src with
      | EmptyString => zero :: strncpy EmptyString n'
      | String c r =>
          if Ascii.eqb c zero then zero :: strncpy EmptyString n'
          else c :: strncpy r n'
      end
  end.

(** Reading a [char] buffer as a C string. *)
Fixpoint read_c_string (buf : list ascii) : string :=
  match buf with
  | [] => EmptyString
  | c :: r => if Ascii.eqb c zero then EmptyString else String c (read_c_string r)
  end.

(** A [std::string_view]: the characters it spans, and the characters that
    follow them in the buffer it points into, up to the end of that
    buffer. *)
Record string_view := StringView {
  view_chars : string;
  view_beyond : string
}.

(** What [sv.data()] points at: the characters of the view and, with no
    terminator in between, the ones that follow them. *)
Definition data (sv : string_view) : string := view_chars sv +:+ view_beyond sv.

(** The view an [initializer_list] entry written as a string literal
    converts to: the buffer ends where the view does. *)
Definition literal (s : string) : string_view := StringView s "".

(** ** The host library *)

(** The two properties [load_functions] and [get_api] query. *)
Inductive AvsEnvProperty := AVS_AEP_INTERFACE_VERSION | AVS_AEP_INTERFACE_BUGFIX.

Record Host := {
  (** result of [avs_open_library()]; [0] when the library is not found *)
  host_open : Z;
  (** result of [avs_get_proc_address(handle, name)]; [0] when missing *)
  host_sym : string -> Z;
  (** what [api_pointers_.avs_get_env_property(env, prop)] returns, a
      [size_t] *)
  host_get_env_property : Z -> AvsEnvProperty -> Z;
  (** what [api_pointers_.avs_check_version(env, version)] returns, an
      [int]; zero is success *)
  host_check_version : Z -> Z -> Z
}.

(** ** State *)

(** The calls the loader makes: to the platform shim
    ([avs_open_library], [avs_close_library], [avs_get_proc_address]) and,
    through the members of [api_pointers_] of the same names, into the
    loaded library ([avs_get_env_property(env, prop)],
    [avs_check_version(env, version)] and
    [avs_at_exit(env, cleanup_callback, nullptr)]). *)
Inductive Event :=
| EvOpen (handle : Z)
| EvClose (handle : Z)
| EvResolve (name : string)
| EvGetEnvProperty (env : Z) (prop : AvsEnvProperty)
| EvCheckVersion (env : Z) (version : Z)
| EvAtExit (env : Z).

(** Value of [const avisynth_c_api_pointers*]: null or the address of
    [instance_.api_pointers_], the only table there is. *)
Inductive table_ptr := null_table | instance_table.

Global Instance table_ptr_eq_dec : EqDecision table_ptr.
Proof. solve_decision. Defined.

Record avisynth_c_api_loader := Loader {
  library_handle_ : Z;
  api_pointers_ : gmap string Z;
  last_error_message_ : string;
  initialized_ : bool
}.

Record Process := Proc {
  instance_ : avisynth_c_api_loader;
  ref_count_ : Z;
  g_avs_api : table_ptr;
  (** [static char static_error_buffer[300]] of [get_last_error] *)
  static_error_buffer : list ascii;
  os_log : list Event
}.

(** Default member initialisers and zero-initialised statics. *)
Definition initial_loader : avisynth_c_api_loader :=
  Loader 0 ∅ "" false.

Definition initial_process : Process :=
  Proc initial_loader 0 null_table (replicate 300 zero) [].

(** *** Field access *)

Definition handle (s : Process) : Z := library_handle_ (instance_ s).
Definition table (s : Process) : gmap string Z := api_pointers_ (instance_ s).
Definition message (s : Process) : string := last_error_message_ (instance_ s).
Definition initialized (s : Process) : bool := initialized_ (instance_ s).

(** The pointer held by member [key] of [api_pointers_]. *)
Definition slot (s : Process) (key : string) : Z := default 0 (table s !! key).

Definition with_instance (f : avisynth_c_api_loader -> avisynth_c_api_loader)
    (s : Process) : Process :=
  Proc (f (instance_ s)) (ref_count_ s) (g_avs_api s) (static_error_buffer s) (os_log s).

Definition set_handle (h : Z) : Process -> Process :=
  with_instance (fun i => Loader h (api_pointers_ i) (last_error_message_ i) (initialized_ i)).

Definition set_table (t : gmap string Z) : Process -> Process :=
  with_instance (fun i => Loader (library_handle_ i) t (last_error_message_ i) (initialized_ i)).

Definition set_message (m : string) : Process -> Process :=
  with_instance (fun i => Loader (library_handle_ i) (api_pointers_ i) m (initialized_ i)).

Definition set_initialized (b : bool) : Process -> Process :=
  with_instance (fun i => Loader (library_handle_ i) (api_pointers_ i) (last_error_message_ i) b).

Definition set_ref_count (n : Z) (s : Process) : Process :=
  Proc (instance_ s) n (g_avs_api s) (static_error_buffer s) (os_log s).

Definition set_g_avs_api (p : table_ptr) (s : Process) : Process :=
  Proc (instance_ s) (ref_count_ s) p (static_error_buffer s) (os_log s).

Definition set_static_error_buffer (b : list ascii) (s : Process) : Process :=
  Proc (instance_ s) (ref_count_ s) (g_avs_api s) b (os_log s).

Definition emit (e : Event) (s : Process) : Process :=
  Proc (instance_ s) (ref_count_ s) (g_avs_api s) (static_error_buffer s) (e :: os_log s).

(** Several calls, the newest first. *)
Definition emit_all (es : list Event) (s : Process) : Process :=
  Proc (instance_ s) (ref_count_ s) (g_avs_api s) (static_error_buffer s) (es ++ os_log s).

(** [ptr_member = addr] for a member of [api_pointers_]. *)
Definition write_slot (key : string) (addr : Z) (s : Process) : Process :=
  set_table (if decide (addr = 0) then delete key (table s) else <[key := addr]> (table s)) s.

(** Handles opened and not closed, as a balance over the log. *)
Fixpoint open_balance (log : list Event) : Z :=
  match log with
  | [] => 0
  | EvOpen h :: r => (if decide (h = 0) then 0 else 1) + open_balance r
  | EvClose _ :: r => open_balance r - 1
  | _ :: r => open_balance r
  end.

(** ** The loader *)

(** What the translation unit is built with: the platform it is compiled
    for, and the names [avs_c_api_functions.inc] lists, in order, one
    [FUNC(name)] entry per member of [avisynth_c_api_pointers]. The three
    members [load_functions] names itself ([avs_check_version],
    [avs_at_exit], [avs_get_env_property]) are among them in any build
    that compiles; nothing below depends on that. *)
Class Build := {
  platform : Platform;
  known : list string
}.

Section Loader.

Context {build : Build}.

(** [pointer_offset_map]: its keys are the listed names, and the offset
    stored under a key is the one of the member of that name. *)
Definition pointer_offset_map : gset string := list_to_set known.

(** [load_single_function(name, ptr_member, required)]; [key] names the
    member [ptr_member] refers to. *)
Definition load_single_function (host : Host) (name key : string)
    (required : bool) (s : Process) : bool * Process :=
  let addr := host_sym host (c_str name) in
  let s := emit (EvResolve (c_str name)) s in
  if decide (addr = 0) then
    let s := write_slot key 0 s in
    if required then
      (false, set_message ("Failed to load required function: " +:+ c_str name) s)
    else (true, s)
  else (true, write_slot key addr s).

(** [unload_library()] *)
Definition unload_library (s : Process) : Process :=
  if decide (handle s = 0) then s
  else
    let s := emit (EvClose (handle s)) s in
    let s := set_handle 0 s in
    let s := set_table ∅ s in
    let s := set_initialized false s in
    set_g_avs_api null_table s.

(** [cleanup_callback(user_data, env)]: neither argument is used. *)
Definition cleanup_callback (s : Process) : Process :=
  let old := ref_count_ s in
  let s := set_ref_count (wrap_long platform (old - 1)) s in
  if decide (old = 1) then unload_library s else s.

(** The [version_ok] lambda, the same text in [load_functions] and in
    [get_api]: the verdict with the major and bugfix numbers it leaves in
    the enclosing variables. The calls it makes to get them are
    [version_ok_calls], which its two callers put in the log. *)
Definition version_ok (host : Host) (env required_interface_version
    required_bugfix_version : Z) (s : Process) : option (bool * Z * Z) :=
  if decide (slot s "avs_get_env_property" = 0) then
    if decide (slot s "avs_check_version" = 0) then None
    else
      Some (bool_decide (host_check_version host env required_interface_version = 0),
            required_interface_version, 0)
  else
    let major := to_int (host_get_env_property host env AVS_AEP_INTERFACE_VERSION) in
    let bugfix := to_int (host_get_env_property host env AVS_AEP_INTERFACE_BUGFIX) in
    Some (if decide (major > required_interface_version) then true
          else if decide (major = required_interface_version)
               then bool_decide (bugfix >= required_bugfix_version)
               else false,
          major, bugfix).

(** The calls the [version_ok] lambda makes into the loaded library,
    newest first: the two property queries, or the one version check. *)
Definition version_ok_calls (env required_interface_version : Z) (s : Process)
    : list Event :=
  if decide (slot s "avs_get_env_property" = 0)
  then [EvCheckVersion env required_interface_version]
  else [EvGetEnvProperty env AVS_AEP_INTERFACE_BUGFIX;
        EvGetEnvProperty env AVS_AEP_INTERFACE_VERSION].

Definition precise_version_message (rmajor rbugfix major bugfix : Z) : string :=
  "Avisynth C API Error: Plugin requires interface >= " +:+ string_of_Z rmajor
    +:+ "." +:+ string_of_Z rbugfix +:+ ", but found " +:+ string_of_Z major
    +:+ "." +:+ string_of_Z bugfix +:+ ".".

Definition degraded_version_message (rmajor rbugfix : Z) : string :=
  "Avisynth C API Error: Plugin requires interface >= " +:+ string_of_Z rmajor
    +:+ "." +:+ string_of_Z rbugfix
    +:+ ", but the installed AviSynth+ version is too old.".

(** What the [snprintf] into [version_error_msg[200]] leaves there. *)
Definition version_error_msg (s : Process) (rmajor rbugfix major bugfix : Z) : string :=
  if decide (slot s "avs_get_env_property" = 0)
  then snprintf 200 (degraded_version_message rmajor rbugfix)
  else snprintf 200 (precise_version_message rmajor rbugfix major bugfix).

(** The loop of [load_functions] over [required_names]: the view is what
    is looked up in the map and what the unknown-name message appends;
    [req_name_sv.data()] is what is resolved. *)
Fixpoint load_required (host : Host) (names : list string_view) (s : Process)
    : bool * Process :=
  match names with
  | [] => (true, s)
  | req_name_sv :: rest =>
      if decide (view_chars req_name_sv ∈ pointer_offset_map) then
        match load_single_function host (data req_name_sv) (view_chars req_name_sv) true s with
        | (true, s) => load_required host rest s
        | (false, s) => (false, unload_library s)
        end
      else
        let s := set_message
          ("Internal Error: Unknown function requested as required: "
             +:+ view_chars req_name_sv) s in
        (false, unload_library s)
  end.

(** The second expansion of the list: every member still null is
    resolved as optional. *)
Fixpoint load_optional (host : Host) (names : list string) (s : Process) : Process :=
  match names with
  | [] => s
  | name :: rest =>
      let s := if decide (slot s name = 0)
               then snd (load_single_function host name name false s)
               else s in
      load_optional host rest s
  end.

(** [api_pointers_.avs_at_exit(env, cleanup_callback, nullptr)] *)
Definition register_cleanup (env : Z) (s : Process) : option Process :=
  if decide (slot s "avs_at_exit" = 0) then None else Some (emit (EvAtExit env) s).

Definition library_not_found_message : string :=
  "Failed to load avisynth library (" +:+ AVS_LIB_NAME platform
    +:+ "). Is Avisynth+ installed correctly?".

(** What follows the version check in [load_functions]. *)
Definition load_after_version (host : Host) (env : Z) (required_names : list string_view)
    (s : Process) : option (bool * Process) :=
  match load_required host required_names s with
  | (false, s) => Some (false, s)
  | (true, s) =>
      let s := load_optional host known s in
      s ← register_cleanup env s;
      let s := set_initialized true s in
      let s := set_message "" s in
      Some (true, s)
  end.

(** The block that resolves the two required bootstrap symbols and the
    optional property getter; all three calls are made, [&=] does not
    short-circuit. *)
Definition load_essentials (host : Host) (s : Process) : bool * Process :=
  let '(ok1, s) := load_single_function host "avs_check_version" "avs_check_version" true s in
  let '(ok2, s) := load_single_function host "avs_at_exit" "avs_at_exit" true s in
  let '(ok3, s) := load_single_function host "avs_get_env_property" "avs_get_env_property" false s in
  (ok1 && ok2 && ok3, s).

(** [library_handle_ = avs_open_library()] *)
Definition open_library (host : Host) (s : Process) : Process :=
  emit (EvOpen (host_open host)) (set_handle (host_open host) s).

(** [load_functions(env, required_interface_version,
    required_bugfix_version, required_names)] *)
Definition load_functions (host : Host) (env required_interface_version
    required_bugfix_version : Z) (required_names : list string_view) (s : Process)
    : option (bool * Process) :=
  let s := open_library host s in
  if decide (handle s = 0) then
    Some (false, set_message library_not_found_message s)
  else
    let '(essentials_ok, s) := load_essentials host s in
    if negb essentials_ok then Some (false, unload_library s)
    else
      '(ok, major, bugfix) ← version_ok host env required_interface_version
                              required_bugfix_version s;
      let s := emit_all (version_ok_calls env required_interface_version s) s in
      if negb ok then
        let s := set_message (version_error_msg s required_interface_version
                                required_bugfix_version major bugfix) s in
        Some (false, unload_library s)
      else load_after_version host env required_names s.

(** [get_api(env, required_interface_version, required_bugfix_version,
    required_function_names)] *)
Definition get_api (host : Host) (env required_interface_version
    required_bugfix_version : Z) (required_function_names : list string_view)
    (s : Process) : option (table_ptr * Process) :=
  let old := ref_count_ s in
  let s := set_ref_count (wrap_long platform (old + 1)) s in
  if decide (old = 0) then
    '(ok, s) ← load_functions host env required_interface_version
                required_bugfix_version required_function_names s;
    if negb ok then
      let s := set_ref_count (wrap_long platform (ref_count_ s - 1)) s in
      let s := set_g_avs_api null_table s in
      Some (null_table, s)
    else Some (instance_table, set_g_avs_api instance_table s)
  else if initialized s then
    '(ok, major, bugfix) ← version_ok host env required_interface_version
                            required_bugfix_version s;
    let s := emit_all (version_ok_calls env required_interface_version s) s in
    if negb ok then
      let s := set_message (version_error_msg s required_interface_version
                              required_bugfix_version major bugfix) s in
      Some (null_table, unload_library s)
    else Some (instance_table, set_g_avs_api instance_table s)
  else Some (null_table, cleanup_callback s).

Definition fallback_error : string := "Unknown Avisynth C API loading error.".

(** [get_last_error()]: the C string behind the returned pointer and the
    state. [strncpy] writes the first 299 bytes of the buffer and the
    assignment that follows the last one, so all 300 are rewritten. *)
Definition get_last_error (s : Process) : string * Process :=
  if decide (message s = "") then (fallback_error, s)
  else
    let buf := strncpy (message s) (300 - 1) ++ [zero] in
    (read_c_string buf, set_static_error_buffer buf s).

(** *** Runs *)

Inductive Op :=
| OpGetApi (host : Host) (env required_interface_version required_bugfix_version : Z)
           (required_function_names : list string_view)
| OpCleanup
| OpGetLastError.

Definition step (o : Op) (s : Process) : option Process :=
  match o with
  | OpGetApi host env rmajor rbugfix names => snd <$> get_api host env rmajor rbugfix names s
  | OpCleanup => Some (cleanup_callback s)
  | OpGetLastError => Some (snd (get_last_error s))
  end.

Fixpoint run (ops : list Op) (s : Process) : option Process :=
  match ops with
  | [] => Some s
  | o :: rest => s ← step o s; run rest s
  end.

(** ** Specification vocabulary *)

(** The comparison rule of the version negotiation. *)
Definition version_satisfied (major bugfix required_major required_bugfix : Z) : Prop :=
  major > required_major \/ (major = required_major /\ bugfix >= required_bugfix).

Definition host_major (host : Host) (env : Z) : Z :=
  to_int (host_get_env_property host env AVS_AEP_INTERFACE_VERSION).

Definition host_bugfix (host : Host) (env : Z) : Z :=
  to_int (host_get_env_property host env AVS_AEP_INTERFACE_BUGFIX).

(** The requirement of a call, judged against the table that is loaded:
    by the comparison rule when the property getter is there, by the
    version-check entry point otherwise. *)
Definition requirement_met (host : Host) (env rmajor rbugfix : Z) (s : Process) : Prop :=
  if decide (slot s "avs_get_env_property" = 0)
  then slot s "avs_check_version" <> 0 /\ host_check_version host env rmajor = 0
  else version_satisfied (host_major host env) (host_bugfix host env) rmajor rbugfix.

(** The same judgement on what the host exports, for a first caller. *)
Definition host_satisfies (host : Host) (env rmajor rbugfix : Z) : Prop :=
  if decide (host_sym host "avs_get_env_property" = 0)
  then host_check_version host env rmajor = 0
  else version_satisfied (host_major host env) (host_bugfix host env) rmajor rbugfix.

(** [UNLOADED]: no handle, a zeroed table, the flag cleared and the shared
    accessor null. *)
Definition unloaded (s : Process) : Prop :=
  handle s = 0 /\ table s = ∅ /\ initialized s = false /\ g_avs_api s = null_table.

(** [n] teardown notifications. *)
Definition teardowns (n : nat) (s : Process) : Process :=
  Nat.iter n cleanup_callback s.

(** The arguments of one [get_api] call and the host it runs against. *)
Record Call := {
  call_host : Host;
  call_env : Z;
  call_major : Z;
  call_bugfix : Z;
  call_names : list string_view
}.

Definition get_api_call (c : Call) (s : Process) : option (table_ptr * Process) :=
  get_api (call_host c) (call_env c) (call_major c) (call_bugfix c) (call_names c) s.

(** A sequence of calls, each of which returns the table. *)
Inductive all_succeed : list Call -> Process -> Process -> Prop :=
| all_succeed_nil s : all_succeed [] s s
| all_succeed_cons c cs s s1 s2 :
    get_api_call c s = Some (instance_table, s1) ->
    all_succeed cs s1 s2 ->
    all_succeed (c :: cs) s s2.

(** What a call leaves alone when it only touches the table and the
    message, and adds to the log neither an open nor a close. *)
Definition frame (s s' : Process) : Prop :=
  handle s' = handle s /\ initialized s' = initialized s /\
  ref_count_ s' = ref_count_ s /\ g_avs_api s' = g_avs_api s /\
  static_error_buffer s' = static_error_buffer s /\
  open_balance (os_log s') = open_balance (os_log s).

(** The effect of an unload that closes a handle. *)
Definition closed_from (s s' : Process) : Prop :=
  unloaded s' /\ message s' = message s /\ ref_count_ s' = ref_count_ s /\
  static_error_buffer s' = static_error_buffer s /\
  open_balance (os_log s') = open_balance (os_log s) - 1.

(** A required name the loop accepts: the view is listed, and the host
    exports the C string at its [data()]. *)
Definition resolvable (host : Host) (name : string_view) : Prop :=
  view_chars name ∈ known /\ host_sym host (c_str (data name)) <> 0.

(** The state a completed load leaves, relative to the one the handle was
    opened in. *)
Definition loaded_from (s s' : Process) : Prop :=
  handle s' = handle s /\ initialized s' = true /\ message s' = "" /\
  ref_count_ s' = ref_count_ s /\ g_avs_api s' = g_avs_api s /\
  static_error_buffer s' = static_error_buffer s /\
  open_balance (os_log s') = open_balance (os_log s) /\
  (forall k, slot s k <> 0 -> slot s' k <> 0).

(** The state a failed load leaves after its handle was opened: some
    non-empty message was recorded, then the library was unloaded. *)
Definition failed_from (s s' : Process) : Prop :=
  exists s0, frame s s0 /\ message s0 <> "" /\ s' = unload_library s0.

(** When the load sequence goes through: the library opens, both
    bootstrap symbols resolve, the version is sufficient and every
    required name is listed and resolves. *)
Definition load_succeeds (host : Host) (env rmajor rbugfix : Z) (names : list string_view)
    : Prop :=
  host_open host <> 0 /\
  host_sym host "avs_check_version" <> 0 /\ host_sym host "avs_at_exit" <> 0 /\
  host_satisfies host env rmajor rbugfix /\
  Forall (resolvable host) names.

(** The five ways a load sequence fails. *)
Inductive load_failure (host : Host) (env rmajor rbugfix : Z) (names : list string_view)
    : Prop :=
| library_not_found :
    host_open host = 0 -> load_failure host env rmajor rbugfix names
| missing_bootstrap_symbol :
    host_sym host "avs_check_version" = 0 \/ host_sym host "avs_at_exit" = 0 ->
    load_failure host env rmajor rbugfix names
| version_insufficient :
    ~ host_satisfies host env rmajor rbugfix -> load_failure host env rmajor rbugfix names
| missing_required_symbol name :
    name ∈ names -> view_chars name ∈ known -> host_sym host (c_str (data name)) = 0 ->
    load_failure host env rmajor rbugfix names
| unknown_required_name name :
    name ∈ names -> view_chars name ∉ known -> load_failure host env rmajor rbugfix names.

(** The state [load_functions] runs the version check in. *)
Definition at_version_check (host : Host) (s : Process) : Process :=
  (load_essentials host (open_library host s)).2.

(** The state the version check leaves: its calls are in the log. *)
Definition after_version_check (host : Host) (env rmajor : Z) (s : Process) : Process :=
  emit_all (version_ok_calls env rmajor (at_version_check host s)) (at_version_check host s).

(** The library is loaded: what every successful call leaves. *)
Definition ready (s : Process) : Prop :=
  handle s <> 0 /\ initialized s = true /\ message s = "".

(** No NUL among the characters of a string. *)
Fixpoint nul_free (s : string) : Prop :=
  match s with
  | EmptyString => True
  | String c r => c <> zero /\ nul_free r
  end.

(** What holds between calls: an initialised loader has no message, a
    handle, a positive count and the version-check entry point; a loader
    without a handle is [UNLOADED]; and a count of 0 or less goes with no
    handle. *)
Definition consistent (s : Process) : Prop :=
  (initialized s = true ->
   message s = "" /\ handle s <> 0 /\ 1 <= ref_count_ s /\ slot s "avs_check_version" <> 0) /\
  (handle s = 0 -> unloaded s) /\
  (ref_count_ s <= 0 -> handle s = 0).

Definition count_within (n : Z) (s : Process) : Prop := - n <= ref_count_ s <= n.

(** ** Further vocabulary *)

(** The members [load_functions] resolves before the version check. *)
Definition bootstrap_names : list string :=
  ["avs_check_version"; "avs_at_exit"; "avs_get_env_property"].

(** A symbol resolution, among the calls to the platform library. *)
Definition is_resolve (e : Event) : Prop :=
  match e with EvResolve _ => True | _ => False end.

(** A version query, among the calls into the loaded library. *)
Definition is_version_query (e : Event) : Prop :=
  match e with EvGetEnvProperty _ _ | EvCheckVersion _ _ => True | _ => False end.

(** A required view that is a whole C string: it has no NUL inside and
    its buffer ends where it does, as for a string literal. *)
Definition whole (name : string_view) : Prop := c_str (data name) = view_chars name.

Definition is_get_api (o : Op) : Prop :=
  match o with OpGetApi _ _ _ _ _ => True | _ => False end.

Definition is_get_last_error (o : Op) : Prop :=
  match o with OpGetLastError => True | _ => False end.

(** A requirement at most as demanding as another one. *)
Definition laxer (rmajor' rbugfix' rmajor rbugfix : Z) : Prop :=
  rmajor' < rmajor \/ (rmajor' = rmajor /\ rbugfix' <= rbugfix).

(** Handle, flag, accessor and the log of opens and closes go together:
    [READY] when there is a handle, and exactly one handle open then. *)
Definition coupled (s : Process) : Prop :=
  (handle s <> 0 -> initialized s = true /\ g_avs_api s = instance_table) /\
  open_balance (os_log s) = (if decide (handle s = 0) then 0 else 1).

End Loader.

(** ** Example hosts *)

(** A short function list for the examples. *)
Definition example_schema : list string :=
  ["avs_check_version"; "avs_at_exit"; "avs_get_env_property"; "avs_get_frame";
   "avs_add_function"].

(** A build for Linux with that list. *)
Definition linux_example : Build := {| platform := Linux; known := example_schema |}.

(** A host at interface version 10, bugfix 0, that exports the property
    getter and [avs_get_frame], but not [avs_add_function]. *)
Definition host_10_0 : Host := {|
  host_open := 4096;
  host_sym := fun name =>
    if decide (name ∈ ["avs_check_version"; "avs_at_exit"; "avs_get_env_property";
                       "avs_get_frame"])
    then 8192 + Z.of_nat (String.length name) else 0;
  host_get_env_property := fun _ prop =>
    match prop with AVS_AEP_INTERFACE_VERSION => 10 | AVS_AEP_INTERFACE_BUGFIX => 0 end;
  host_check_version := fun _ version => if decide (version <= 10) then 0 else 1
|}.

(** An older host without the property getter, at interface version 6. *)
Definition host_without_getter : Host := {|
  host_open := 4096;
  host_sym := fun name =>
    if decide (name ∈ ["avs_check_version"; "avs_at_exit"; "avs_get_frame"])
    then 8192 + Z.of_nat (String.length name) else 0;
  host_get_env_property := fun _ _ => 0;
  host_check_version := fun _ version => if decide (version <= 6) then 0 else 1
|}.

(** A host at (10, 0) that exports [avs_get_frame_props_rw] and no
    [avs_get_frame]. *)
Definition host_with_props : Host := {|
  host_open := 4096;
  host_sym := fun name =>
    if decide (name ∈ ["avs_check_version"; "avs_at_exit"; "avs_get_env_property";
                       "avs_get_frame_props_rw"])
    then 8192 + Z.of_nat (String.length name) else 0;
  host_get_env_property := fun _ prop =>
    match prop with AVS_AEP_INTERFACE_VERSION => 10 | AVS_AEP_INTERFACE_BUGFIX => 0 end;
  host_check_version := fun _ version => if decide (version <= 10) then 0 else 1
|}.

(** [std::string_view("avs_get_frame_props_rw", 13)]: the first 13
    characters of a string literal that goes on. *)
Definition cut_view : string_view := StringView "avs_get_frame" "_props_rw".

(** No library installed. *)
Definition host_absent : Host := {|
  host_open := 0;
  host_sym := fun _ => 0;
  host_get_env_property := fun _ _ => 0;
  host_check_version := fun _ _ => 1
|}.

(** ** Example states *)

Definition state_of (r : option (table_ptr * Process)) : Process :=
  match r with Some (_, s) => s | None => initial_process end.

(** After a first call that requires (10, 0) of [host_10_0]. *)
Definition state_loaded : Process :=
  state_of (@get_api linux_example host_10_0 7 10 0 [literal "avs_get_frame"] initial_process).

(** After a first call, against [host_with_props], that requires the
    member named by [cut_view]. *)
Definition state_with_props : Process :=
  state_of (@get_api linux_example host_with_props 7 10 0 [cut_view] initial_process).

(** After a second call, that requires (11, 0). *)
Definition state_after_mismatch : Process :=
  state_of (@get_api linux_example host_10_0 7 11 0 [literal "avs_get_frame"] state_loaded).

(** After a second call that requires (10, 0) again. *)
Definition state_shared : Process :=
  state_of (@get_api linux_example host_10_0 8 10 0 [] state_loaded).

(** Two plugins in one process, both requiring (10, 0). *)
Definition two_calls : list Call :=
  [ {| call_host := host_10_0; call_env := 7; call_major := 10; call_bugfix := 0;
       call_names := [literal "avs_get_frame"] |};
    {| call_host := host_10_0; call_env := 8; call_major := 10; call_bugfix := 0;
       call_names := [] |} ].

(** A call that loads and its teardown, a call that finds no library, an
    error query, and a call that is refused for its version. *)
Definition example_ops : list Op :=
  [ OpGetApi host_10_0 7 10 0 [];
    OpCleanup;
    OpGetApi host_absent 7 10 0 [literal "avs_get_frame"];
    OpGetLastError;
    OpGetApi host_without_getter 7 10 0 [] ].

Definition state_after_ops : Process :=
  default initial_process (@run linux_example example_ops initial_process).

(** ** The value guard of the header *)

(** [AVS_Value] comes from [avisynth_c.h]: the guard uses its members
    [type] and [array_size] and the constant [avs_void], and passes values
    to [avs_release_value] through the shared accessor. *)
Class ValueModel := {
  AVS_Value : Type;
  avs_void : AVS_Value;
  value_type : AVS_Value -> Z;
  value_array_size : AVS_Value -> Z
}.

Section ValueGuard.

Context {values : ValueModel}.

(** The character ['v']. *)
Definition char_v : Z := 118.

(** [class avs_value_guard] *)
Record avs_value_guard := Guard {
  value_ : AVS_Value;
  owns_value_ : bool
}.

(** [g_avs_api->avs_release_value(v)]: the values handed to the host, or
    [None] when the accessor or the member is null. *)
Definition avs_release_value (s : Process) (v : AVS_Value) : option (list AVS_Value) :=
  if decide (g_avs_api s = null_table) then None
  else if decide (slot s "avs_release_value" = 0) then None
  else Some [v].

(** [if (owns_value_) g_avs_api->avs_release_value(value_);] *)
Definition release_if_owned (s : Process) (g : avs_value_guard) : option (list AVS_Value) :=
  if owns_value_ g then avs_release_value s (value_ g) else Some [].

(** [avs_value_guard()] *)
Definition guard_default : avs_value_guard := Guard avs_void false.

(** [avs_value_guard(AVS_Value val)] *)
Definition guard_of (val : AVS_Value) : avs_value_guard := Guard val true.

(** [~avs_value_guard()] *)
Definition guard_destroy (s : Process) (g : avs_value_guard) : option (list AVS_Value) :=
  release_if_owned s g.

(** [avs_value_guard(avs_value_guard&& other)]: the new guard and what is
    left of [other]. *)
Definition guard_move (other : avs_value_guard) : avs_value_guard * avs_value_guard :=
  (Guard (value_ other) (owns_value_ other), Guard avs_void false).

(** [operator=(avs_value_guard&& other)] for two distinct guards: this
    guard and [other] afterwards, and the values released. *)
Definition guard_move_assign (s : Process) (this other : avs_value_guard)
    : option (avs_value_guard * avs_value_guard * list AVS_Value) :=
  released ← release_if_owned s this;
  Some (Guard (value_ other) (owns_value_ other), Guard avs_void false, released).

(** [get()] *)
Definition guard_get (g : avs_value_guard) : AVS_Value := value_ g.

(** [release()]: the value returned and the guard afterwards. *)
Definition guard_release (g : avs_value_guard) : AVS_Value * avs_value_guard :=
  (value_ g, Guard avs_void false).

(** [reset(AVS_Value new_val)] *)
Definition guard_reset_to (s : Process) (g : avs_value_guard) (new_val : AVS_Value)
    : option (avs_value_guard * list AVS_Value) :=
  released ← release_if_owned s g;
  Some (Guard new_val
          (if decide (value_type new_val = char_v /\ value_array_size new_val = 0)
           then false else true),
        released).

(** [reset()] *)
Definition guard_reset (s : Process) (g : avs_value_guard)
    : option (avs_value_guard * list AVS_Value) :=
  released ← release_if_owned s g;
  Some (Guard avs_void false, released).

(** *** A guard in use *)

Inductive GuardOp :=
| GReset (new_val : AVS_Value)
| GResetVoid
| GRelease
| GGet.

(** What becomes of a value the guard owned: released to the host, or
    handed back to the caller by [release()]. *)
Inductive disposal :=
| Released (v : AVS_Value)
| HandedBack (v : AVS_Value).

Definition disposed (d : disposal) : AVS_Value :=
  match d with Released v | HandedBack v => v end.

Definition guard_step (s : Process) (o : GuardOp) (g : avs_value_guard)
    : option (avs_value_guard * list disposal) :=
  match o with
  | GReset new_val =>
      match guard_reset_to s g new_val with
      | Some (g', released) => Some (g', Released <$> released)
      | None => None
      end
  | GResetVoid =>
      match guard_reset s g with
      | Some (g', released) => Some (g', Released <$> released)
      | None => None
      end
  | GRelease =>
      Some ((guard_release g).2,
            if owns_value_ g then [HandedBack (guard_release g).1] else [])
  | GGet => Some (g, [])
  end.

(** A sequence of operations on one guard, then its destruction. *)
Fixpoint guard_life (s : Process) (ops : list GuardOp) (g : avs_value_guard)
    : option (list disposal) :=
  match ops with
  | [] =>
      match guard_destroy s g with
      | Some released => Some (Released <$> released)
      | None => None
      end
  | o :: rest =>
      match guard_step s o g with
      | Some (g', ds) =>
          match guard_life s rest g' with
          | Some ds' => Some (ds ++ ds')
          | None => None
          end
      | None => None
      end
  end.

(** The values a sequence of operations makes the guard own: those given
    to [reset] that are not void. *)
Fixpoint taken (ops : list GuardOp) : list AVS_Value :=
  match ops with
  | [] => []
  | GReset v :: rest =>
      if decide (value_type v = char_v /\ value_array_size v = 0) then taken rest
      else v :: taken rest
  | _ :: rest => taken rest
  end.

Definition held (g : avs_value_guard) : list AVS_Value :=
  if owns_value_ g then [value_ g] else [].

(** The host can be asked to release a value. *)
Definition can_release (s : Process) : Prop :=
  g_avs_api s = instance_table /\ slot s "avs_release_value" <> 0.

End ValueGuard.

(** Values as triples of type, array size and payload. *)
Definition example_values : ValueModel := {|
  AVS_Value := Z * Z * Z;
  avs_void := (118, 0, 0);
  value_type := fun v => v.1.1;
  value_array_size := fun v => v.1.2
|}.

Definition example_value (type array_size payload : Z) : @AVS_Value example_values :=
  (type, array_size, payload).

(** A host that exports [avs_release_value] as well. *)
Definition host_with_release : Host := {|
  host_open := 4096;
  host_sym := fun name =>
    if decide (name ∈ ["avs_check_version"; "avs_at_exit"; "avs_get_env_property";
                       "avs_release_value"])
    then 8192 + Z.of_nat (String.length name) else 0;
  host_get_env_property := fun _ prop =>
    match prop with AVS_AEP_INTERFACE_VERSION => 10 | AVS_AEP_INTERFACE_BUGFIX => 0 end;
  host_check_version := fun _ version => if decide (version <= 10) then 0 else 1
|}.

Definition release_build : Build :=
  {| platform := Linux;
     known := ["avs_check_version"; "avs_at_exit"; "avs_get_env_property";
               "avs_release_value"] |}.

(** After a first call with that host. *)
Definition state_with_release : Process :=
  state_of (@get_api release_build host_with_release 7 10 0 [literal "avs_release_value"]
              initial_process).


(** The error text is queried after the refused call; then two teardowns
    bring the count to 0 and a call finds no library. *)
Definition ops_after_query : list Op :=
  [ OpCleanup; OpCleanup; OpGetApi host_absent 7 10 0 [] ].

Definition state_after_query : Process :=
  default initial_process
    (@run linux_example ops_after_query (get_last_error state_after_mismatch).2).

(** A guard that owns a clip value is reset to an integer, handed back,
    reset to void and reset to a string. *)
Definition example_guard_ops : list (@GuardOp example_values) :=
  [ GGet; GReset (example_value 105 0 3); GRelease; GReset (example_value 118 0 0); GResetVoid;
    GReset (example_value 115 0 9) ].


(** A library that opens but exports neither required bootstrap symbol. *)
Definition host_no_bootstrap : Host := {|
  host_open := 4096;
  host_sym := fun _ => 0;
  host_get_env_property := fun _ _ => 0;
  host_check_version := fun _ _ => 0
|}.


(** ** Properties *)

Section Properties.

Context {build : Build}.

(** ** Arithmetic of the counter *)

Lemma wrap_long_id z :
  - LONG_MAX platform - 1 <= z <= LONG_MAX platform -> wrap_long platform z = z.
Proof.
  unfold wrap_long, LONG_MAX. intros Hz.
  assert (H2 : 2 ^ long_bits platform = 2 * 2 ^ (long_bits platform - 1)).
  { destruct platform; reflexivity. }
  rewrite H2. rewrite Z.mod_small; lia.
Qed.

Lemma LONG_MAX_large : 2147483647 <= LONG_MAX platform.
Proof. destruct platform; vm_compute; discriminate. Qed.

(** ** Single steps *)

Ltac open_state s := destruct s as [[? ? ? ?] ? ? ? ?].

Ltac fields := unfold handle, table, message, initialized in *; simpl in *.

Lemma frame_refl s : frame s s.
Proof. by repeat split. Qed.

Lemma frame_trans s1 s2 s3 : frame s1 s2 -> frame s2 s3 -> frame s1 s3.
Proof. unfold frame. intros (?&?&?&?&?&?) (?&?&?&?&?&?). repeat split; congruence. Qed.

Lemma load_single_function_frame host name key required s :
  frame s (load_single_function host name key required s).2.
Proof.
  open_state s. unfold load_single_function, frame.
  repeat case_decide; destruct required; simpl; done.
Qed.

Lemma load_single_function_slot host name key required s k :
  slot (load_single_function host name key required s).2 k =
  if decide (k = key) then host_sym host (c_str name) else slot s k.
Proof.
  open_state s. unfold load_single_function, slot, write_slot, table.
  destruct (decide (host_sym host (c_str name) = 0)) as [E|E]; simpl.
  - destruct required; simpl; case_decide; subst;
      rewrite ?lookup_delete_eq, ?lookup_delete_ne by done; simpl; congruence.
  - case_decide; subst; rewrite ?lookup_insert_eq, ?lookup_insert_ne by done; done.
Qed.

Lemma load_single_function_result host name key required s :
  (load_single_function host name key required s).1 =
  negb (required && bool_decide (host_sym host (c_str name) = 0)).
Proof.
  unfold load_single_function. case_decide.
  - rewrite bool_decide_eq_true_2 by done. by destruct required.
  - rewrite bool_decide_eq_false_2 by done. by destruct required.
Qed.

Lemma load_single_function_message host name key required s :
  message (load_single_function host name key required s).2 =
  if (load_single_function host name key required s).1 then message s
  else "Failed to load required function: " +:+ c_str name.
Proof.
  open_state s. unfold load_single_function.
  repeat case_decide; destruct required; simpl; done.
Qed.

Lemma unload_library_closed s : handle s <> 0 -> closed_from s (unload_library s).
Proof.
  open_state s. unfold unload_library, closed_from, unloaded, handle. simpl.
  intros H. rewrite decide_False by done. simpl. repeat split; lia.
Qed.

Lemma unload_library_noop s : handle s = 0 -> unload_library s = s.
Proof. unfold unload_library. intros H. by rewrite decide_True. Qed.

Lemma unload_library_log s :
  handle s <> 0 ->
  os_log (unload_library s) = EvClose (handle s) :: os_log s /\
  message (unload_library s) = message s.
Proof.
  intros Hh. unfold unload_library. rewrite decide_False by done. by open_state s.
Qed.

(** ** The version check *)

Lemma version_ok_defined host env rmajor rbugfix s :
  slot s "avs_check_version" <> 0 \/ slot s "avs_get_env_property" <> 0 ->
  is_Some (version_ok host env rmajor rbugfix s).
Proof. unfold version_ok. intros [H|H]; repeat case_decide; done. Qed.

Lemma version_ok_verdict host env rmajor rbugfix s ok major bugfix :
  version_ok host env rmajor rbugfix s = Some (ok, major, bugfix) ->
  (ok = true <-> requirement_met host env rmajor rbugfix s) /\
  (if decide (slot s "avs_get_env_property" = 0)
   then major = rmajor /\ bugfix = 0
   else major = host_major host env /\ bugfix = host_bugfix host env).
Proof.
  unfold version_ok, requirement_met, version_satisfied, host_major, host_bugfix.
  destruct (decide (slot s "avs_get_env_property" = 0)) as [Hp|Hp].
  - destruct (decide (slot s "avs_check_version" = 0)) as [Hc|Hc]; [done|].
    intros [= <- <- <-]. rewrite bool_decide_eq_true. tauto.
  - intros [= <- <- <-]. split; [|done].
    repeat case_decide; rewrite ?bool_decide_eq_true; split; try done; lia.
Qed.

Lemma version_ok_none host env rmajor rbugfix s :
  version_ok host env rmajor rbugfix s = None ->
  slot s "avs_get_env_property" = 0 /\ slot s "avs_check_version" = 0.
Proof. unfold version_ok. repeat case_decide; done. Qed.

Lemma version_ok_calls_queries env rmajor s :
  Forall is_version_query (version_ok_calls env rmajor s).
Proof. unfold version_ok_calls. case_decide; repeat constructor. Qed.

Lemma open_balance_queries es log :
  Forall is_version_query es -> open_balance (es ++ log) = open_balance log.
Proof.
  induction 1 as [|e es He _ IH]; [done|]. destruct e; simpl in *; done.
Qed.

(** The calls of the version check change the log only. *)
Lemma version_check_logged env rmajor s :
  frame s (emit_all (version_ok_calls env rmajor s) s) /\
  message (emit_all (version_ok_calls env rmajor s) s) = message s /\
  table (emit_all (version_ok_calls env rmajor s) s) = table s /\
  (forall k, slot (emit_all (version_ok_calls env rmajor s) s) k = slot s k) /\
  os_log (emit_all (version_ok_calls env rmajor s) s) = version_ok_calls env rmajor s ++ os_log s.
Proof.
  pose proof (open_balance_queries _ (os_log s) (version_ok_calls_queries env rmajor s)).
  open_state s. unfold frame. by repeat split.
Qed.

(** ** The stages of the load sequence *)

Lemma open_library_spec host s :
  handle (open_library host s) = host_open host /\
  table (open_library host s) = table s /\
  message (open_library host s) = message s /\
  initialized (open_library host s) = initialized s /\
  ref_count_ (open_library host s) = ref_count_ s /\
  g_avs_api (open_library host s) = g_avs_api s /\
  static_error_buffer (open_library host s) = static_error_buffer s /\
  os_log (open_library host s) = EvOpen (host_open host) :: os_log s.
Proof. open_state s. by repeat split. Qed.

Lemma load_essentials_frame host s : frame s (load_essentials host s).2.
Proof.
  unfold load_essentials.
  pose proof (load_single_function_frame host "avs_check_version" "avs_check_version" true s) as F1.
  destruct (load_single_function host "avs_check_version" _ true s) as [ok1 s1].
  pose proof (load_single_function_frame host "avs_at_exit" "avs_at_exit" true s1) as F2.
  destruct (load_single_function host "avs_at_exit" _ true s1) as [ok2 s2].
  pose proof (load_single_function_frame host "avs_get_env_property" "avs_get_env_property" false s2) as F3.
  destruct (load_single_function host "avs_get_env_property" _ false s2) as [ok3 s3].
  simpl in *. eauto using frame_trans.
Qed.

Lemma load_essentials_slots host s :
  slot (load_essentials host s).2 "avs_check_version" = host_sym host "avs_check_version" /\
  slot (load_essentials host s).2 "avs_at_exit" = host_sym host "avs_at_exit" /\
  slot (load_essentials host s).2 "avs_get_env_property" = host_sym host "avs_get_env_property".
Proof.
  unfold load_essentials.
  pose proof (load_single_function_slot host "avs_check_version" "avs_check_version" true s) as F1.
  destruct (load_single_function host "avs_check_version" _ true s) as [ok1 s1].
  pose proof (load_single_function_slot host "avs_at_exit" "avs_at_exit" true s1) as F2.
  destruct (load_single_function host "avs_at_exit" _ true s1) as [ok2 s2].
  pose proof (load_single_function_slot host "avs_get_env_property" "avs_get_env_property" false s2) as F3.
  destruct (load_single_function host "avs_get_env_property" _ false s2) as [ok3 s3].
  simpl in *. repeat split.
  - rewrite F3, F2, F1. reflexivity.
  - rewrite F3, F2. reflexivity.
  - rewrite F3. reflexivity.
Qed.

Lemma load_essentials_result host s :
  (load_essentials host s).1 = true <->
  host_sym host "avs_check_version" <> 0 /\ host_sym host "avs_at_exit" <> 0.
Proof.
  unfold load_essentials.
  pose proof (load_single_function_result host "avs_check_version" "avs_check_version" true s) as F1.
  destruct (load_single_function host "avs_check_version" _ true s) as [ok1 s1].
  pose proof (load_single_function_result host "avs_at_exit" "avs_at_exit" true s1) as F2.
  destruct (load_single_function host "avs_at_exit" _ true s1) as [ok2 s2].
  pose proof (load_single_function_result host "avs_get_env_property" "avs_get_env_property" false s2) as F3.
  destruct (load_single_function host "avs_get_env_property" _ false s2) as [ok3 s3].
  simpl in *. subst.
  rewrite !andb_true_iff, !negb_true_iff, !bool_decide_eq_false. tauto.
Qed.

Lemma load_essentials_message host s :
  if (load_essentials host s).1 then message (load_essentials host s).2 = message s
  else message (load_essentials host s).2 <> "".
Proof.
  unfold load_essentials.
  pose proof (load_single_function_message host "avs_check_version" "avs_check_version" true s) as F1.
  destruct (load_single_function host "avs_check_version" _ true s) as [ok1 s1].
  pose proof (load_single_function_message host "avs_at_exit" "avs_at_exit" true s1) as F2.
  destruct (load_single_function host "avs_at_exit" _ true s1) as [ok2 s2].
  pose proof (load_single_function_message host "avs_get_env_property" "avs_get_env_property" false s2) as F3.
  pose proof (load_single_function_result host "avs_get_env_property" "avs_get_env_property" false s2) as R3.
  destruct (load_single_function host "avs_get_env_property" _ false s2) as [ok3 s3].
  simpl in *. subst ok3. destruct ok1, ok2; simpl; rewrite F3, F2, ?F1; done.
Qed.

Lemma version_error_msg_nonempty s rmajor rbugfix major bugfix :
  version_error_msg s rmajor rbugfix major bugfix <> "".
Proof.
  unfold version_error_msg, snprintf, degraded_version_message, precise_version_message.
  case_decide; done.
Qed.

Lemma elem_of_pointer_offset_map name : name ∈ pointer_offset_map <-> name ∈ known.
Proof. unfold pointer_offset_map. apply elem_of_list_to_set. Qed.

Lemma load_required_true host names : forall s s',
  load_required host names s = (true, s') ->
  frame s s' /\ message s' = message s /\
  (forall k, slot s k <> 0 -> slot s' k <> 0) /\
  Forall (resolvable host) names.
Proof.
  induction names as [|n rest IH]; intros s s'; simpl.
  - intros [= <-]. split; [apply frame_refl|]. by repeat split.
  - destruct (decide (view_chars n ∈ pointer_offset_map)) as [Hin|Hin]; [|done].
    pose proof (load_single_function_frame host (data n) (view_chars n) true s) as F.
    pose proof (load_single_function_slot host (data n) (view_chars n) true s) as Sl.
    pose proof (load_single_function_result host (data n) (view_chars n) true s) as R.
    pose proof (load_single_function_message host (data n) (view_chars n) true s) as M.
    destruct (load_single_function host (data n) (view_chars n) true s) as [[|] s1]; [|done].
    simpl in *. intros Hrest. destruct (IH _ _ Hrest) as (F' & M' & Sl' & Hall).
    symmetry in R. apply negb_true_iff, bool_decide_eq_false in R.
    split; [eauto using frame_trans|]. split; [congruence|]. split.
    + intros k Hk. apply Sl'. rewrite Sl. by case_decide.
    + constructor; [|done]. split; [by apply elem_of_pointer_offset_map|done].
Qed.

Lemma load_required_false host names : forall s s',
  load_required host names s = (false, s') ->
  exists s0, frame s s0 /\ message s0 <> "" /\ s' = unload_library s0.
Proof.
  induction names as [|n rest IH]; intros s s'; simpl; [done|].
  destruct (decide (view_chars n ∈ pointer_offset_map)) as [Hin|Hin].
  - pose proof (load_single_function_frame host (data n) (view_chars n) true s) as F.
    pose proof (load_single_function_message host (data n) (view_chars n) true s) as M.
    destruct (load_single_function host (data n) (view_chars n) true s) as [[|] s1]; simpl in *.
    + intros Hrest. destruct (IH _ _ Hrest) as (s0 & F' & M' & ->).
      exists s0. eauto using frame_trans.
    + intros [= <-]. exists s1. split; [done|]. split; [|done]. by rewrite M.
  - intros [= <-]. eexists. split; [|split; [|reflexivity]].
    + open_state s. by repeat split.
    + by open_state s.
Qed.

Lemma load_required_resolvable host names : forall s,
  Forall (resolvable host) names -> (load_required host names s).1 = true.
Proof.
  induction names as [|n rest IH]; intros s Hall; simpl; [done|].
  inversion Hall as [|? ? [Hin Hsym] Hrest]; subst.
  rewrite decide_True by (by apply elem_of_pointer_offset_map).
  pose proof (load_single_function_result host (data n) (view_chars n) true s) as R.
  destruct (load_single_function host (data n) (view_chars n) true s) as [ok s1]. simpl in R.
  rewrite bool_decide_eq_false_2 in R by done. subst ok. simpl. by apply IH.
Qed.

(** The loop stops at the first name that is not listed. *)
Lemma load_required_unknown host pre bad post : forall s,
  Forall (resolvable host) pre -> view_chars bad ∉ known ->
  exists s0, frame s s0 /\
    load_required host (pre ++ bad :: post) s =
    (false, unload_library (set_message
       ("Internal Error: Unknown function requested as required: " +:+ view_chars bad) s0)).
Proof.
  induction pre as [|n rest IH]; intros s Hall Hbad; simpl.
  - rewrite decide_False by (by rewrite elem_of_pointer_offset_map).
    exists s. split; [apply frame_refl|done].
  - inversion Hall as [|? ? [Hin Hsym] Hrest]; subst.
    rewrite decide_True by (by apply elem_of_pointer_offset_map).
    pose proof (load_single_function_frame host (data n) (view_chars n) true s) as F.
    pose proof (load_single_function_result host (data n) (view_chars n) true s) as R.
    destruct (load_single_function host (data n) (view_chars n) true s) as [ok s1]. simpl in *.
    rewrite bool_decide_eq_false_2 in R by done. subst ok. simpl.
    destruct (IH s1 Hrest Hbad) as (s0 & F' & ->).
    exists s0. eauto using frame_trans.
Qed.

Lemma load_optional_spec host names : forall s,
  frame s (load_optional host names s) /\
  message (load_optional host names s) = message s /\
  (forall k, slot s k <> 0 -> slot (load_optional host names s) k = slot s k).
Proof.
  induction names as [|n rest IH]; intros s; simpl.
  - split; [apply frame_refl|done].
  - destruct (decide (slot s n = 0)) as [Hn|Hn]; [|apply IH].
    pose proof (load_single_function_frame host n n false s) as F.
    pose proof (load_single_function_slot host n n false s) as Sl.
    pose proof (load_single_function_message host n n false s) as M.
    pose proof (load_single_function_result host n n false s) as R.
    destruct (load_single_function host n n false s) as [ok s1]. simpl in *. subst ok.
    destruct (IH s1) as (F' & M' & Sl').
    split; [eauto using frame_trans|]. split; [congruence|].
    intros k Hk. assert (k <> n) by congruence.
    rewrite Sl'; rewrite Sl; by rewrite decide_False.
Qed.

Lemma load_after_version_spec host env names s :
  slot s "avs_at_exit" <> 0 ->
  exists ok s', load_after_version host env names s = Some (ok, s') /\
    if ok then Forall (resolvable host) names /\ loaded_from s s'
    else ~ Forall (resolvable host) names /\ failed_from s s'.
Proof.
  intros Hexit. unfold load_after_version.
  destruct (load_required host names s) as [[|] s1] eqn:E.
  - destruct (load_required_true _ _ _ _ E) as (F & M & Sl & Hall).
    destruct (load_optional_spec host known s1) as (F' & M' & Sl').
    unfold register_cleanup. rewrite decide_False.
    2:{ rewrite Sl' by auto. auto. }
    simpl. eexists true, _. split; [reflexivity|]. split; [done|].
    destruct (frame_trans _ _ _ F F') as (?&?&?&?&?&?).
    set (s2 := load_optional host known s1) in *.
    assert (forall k, slot s k <> 0 -> slot s2 k <> 0) as Sl2.
    { intros k Hk. unfold s2. rewrite Sl' by auto. auto. }
    clearbody s2. open_state s2. open_state s. simpl in *.
    unfold loaded_from. repeat split; done.
  - eexists false, _. split; [reflexivity|]. split.
    + intros Hall. pose proof (load_required_resolvable host names s Hall) as R.
      rewrite E in R. done.
    + by apply load_required_false in E.
Qed.

Lemma failed_from_closed s s' :
  handle s <> 0 -> failed_from s s' ->
  unloaded s' /\ message s' <> "" /\ ref_count_ s' = ref_count_ s /\
  static_error_buffer s' = static_error_buffer s /\
  open_balance (os_log s') = open_balance (os_log s) - 1.
Proof.
  intros Hh (s0 & (Fh & Fi & Fc & Fg & Fb & Fl) & M & ->).
  destruct (unload_library_closed s0) as (U & M' & C & B & L); [congruence|].
  repeat split; try apply U; congruence.
Qed.

Lemma load_functions_spec host env rmajor rbugfix names s :
  exists ok s', load_functions host env rmajor rbugfix names s = Some (ok, s') /\
    ref_count_ s' = ref_count_ s /\
    static_error_buffer s' = static_error_buffer s /\
    if ok then
      load_succeeds host env rmajor rbugfix names /\
      handle s' = host_open host /\ initialized s' = true /\ message s' = "" /\
      g_avs_api s' = g_avs_api s /\
      open_balance (os_log s') = open_balance (os_log s) + 1 /\
      slot s' "avs_check_version" <> 0 /\ slot s' "avs_at_exit" <> 0
    else
      ~ load_succeeds host env rmajor rbugfix names /\
      handle s' = 0 /\ message s' <> "" /\
      open_balance (os_log s') = open_balance (os_log s) /\
      (unloaded s' \/
       (host_open host = 0 /\ table s' = table s /\ initialized s' = initialized s /\
        g_avs_api s' = g_avs_api s)).
Proof.
  unfold load_functions.
  destruct (open_library_spec host s) as (Oh & Ot & Om & Oi & Oc & Og & Ob & Ol).
  set (s1 := open_library host s) in *. clearbody s1.
  assert (open_balance (os_log s1) =
          open_balance (os_log s) + (if decide (host_open host = 0) then 0 else 1)) as Bal.
  { rewrite Ol. simpl. lia. }
  destruct (decide (handle s1 = 0)) as [H0|H0].
  { rewrite Oh in H0. rewrite decide_True in Bal by done.
    eexists false, _. split; [reflexivity|].
    open_state s1. open_state s. fields. unfold load_succeeds, library_not_found_message.
    repeat split; try done; try lia; try tauto. }
  rewrite Oh in H0. rewrite decide_False in Bal by done.
  pose proof (load_essentials_frame host s1) as (Fh & Fi & Fc & Fg & Fb & Fl).
  pose proof (load_essentials_slots host s1) as (Scv & Sae & Sgp).
  pose proof (load_essentials_result host s1) as R.
  pose proof (load_essentials_message host s1) as M.
  destruct (load_essentials host s1) as [eok s2]. simpl in *.
  destruct eok; simpl.
  2:{ eexists false, _. split; [reflexivity|].
      destruct (unload_library_closed s2) as (U & M' & C & B & L); [congruence|].
      split; [congruence|]. split; [congruence|].
      split. { unfold load_succeeds. intros (?&?&?&?).
               assert (false = true) by (by apply R). done. }
      split; [apply U|]. split; [congruence|]. split; [lia|by left]. }
  destruct (proj1 R eq_refl) as [Hcv Hae].
  destruct (version_ok_defined host env rmajor rbugfix s2) as [[[ok major] bugfix] V].
  { left. congruence. }
  rewrite V. simpl.
  destruct (version_ok_verdict _ _ _ _ _ _ _ _ V) as [Verdict _].
  assert (requirement_met host env rmajor rbugfix s2 <-> host_satisfies host env rmajor rbugfix) as Met.
  { unfold requirement_met, host_satisfies. rewrite Sgp, Scv. case_decide; tauto. }
  destruct (version_check_logged env rmajor s2)
    as ((Qh & Qi & Qc & Qg & Qb & Ql) & Qm & _ & Qs & _).
  set (sq := emit_all (version_ok_calls env rmajor s2) s2) in *. clearbody sq.
  destruct ok; simpl.
  2:{ eexists false, _. split; [reflexivity|].
      set (s3 := set_message _ sq).
      assert (handle s3 = handle sq /\ ref_count_ s3 = ref_count_ sq /\
              static_error_buffer s3 = static_error_buffer sq /\
              os_log s3 = os_log sq /\ message s3 <> "") as (H3 & C3 & B3 & L3 & M3).
      { unfold s3. open_state sq. fields. repeat split. apply version_error_msg_nonempty. }
      clearbody s3.
      destruct (unload_library_closed s3) as (U & M' & C & B & L); [congruence|].
      split; [congruence|]. split; [congruence|].
      split. { unfold load_succeeds. intros (?&?&?&Hs&?). apply Met, Verdict in Hs. done. }
      split; [apply U|]. split; [congruence|]. split; [|by left].
      rewrite L, L3. lia. }
  destruct (load_after_version_spec host env names sq) as (ok & s' & -> & Hres).
  { rewrite Qs. congruence. }
  exists ok, s'. split; [done|]. destruct ok.
  - destruct Hres as (Hall & Lh & Li & Lm & Lc & Lg & Lb & Ll & Lsl).
    split; [congruence|]. split; [congruence|].
    split. { unfold load_succeeds. rewrite <- Met, <- Verdict. done. }
    split; [congruence|]. split; [done|]. split; [done|]. split; [congruence|].
    split; [lia|]. split; apply Lsl; rewrite Qs; congruence.
  - destruct Hres as (Hall & Hfail).
    destruct (failed_from_closed sq s') as (U & M' & C & B & L); [congruence|done|].
    split; [congruence|]. split; [congruence|].
    split. { unfold load_succeeds. tauto. }
    split; [apply U|]. split; [done|]. split; [lia|by left].
Qed.

(** ** [get_api] *)

Lemma wrap_long_add z k :
  wrap_long platform (wrap_long platform z + k) = wrap_long platform (z + k).
Proof.
  unfold wrap_long. f_equal.
  set (h := 2 ^ (long_bits platform - 1)). set (m := 2 ^ long_bits platform).
  replace ((z + h) mod m - h + k + h) with ((z + h) mod m + k) by lia.
  rewrite Z.add_mod_idemp_l by (unfold m; destruct platform; done).
  f_equal. lia.
Qed.

Lemma wrap_long_one : wrap_long platform 1 = 1.
Proof. destruct platform; reflexivity. Qed.

Lemma wrap_long_zero : wrap_long platform 0 = 0.
Proof. destruct platform; reflexivity. Qed.

(** A first caller: the count is 0 before the increment. *)
Lemma get_api_first host env rmajor rbugfix names s :
  ref_count_ s = 0 ->
  exists r s', get_api host env rmajor rbugfix names s = Some (r, s') /\
    static_error_buffer s' = static_error_buffer s /\
    match r with
    | instance_table =>
        load_succeeds host env rmajor rbugfix names /\
        ref_count_ s' = 1 /\ handle s' = host_open host /\ initialized s' = true /\
        message s' = "" /\ g_avs_api s' = instance_table /\
        open_balance (os_log s') = open_balance (os_log s) + 1 /\
        slot s' "avs_check_version" <> 0 /\ slot s' "avs_at_exit" <> 0
    | null_table =>
        ~ load_succeeds host env rmajor rbugfix names /\
        ref_count_ s' = 0 /\ handle s' = 0 /\ message s' <> "" /\
        g_avs_api s' = null_table /\
        open_balance (os_log s') = open_balance (os_log s) /\
        ((table s' = ∅ /\ initialized s' = false) \/
         (host_open host = 0 /\ table s' = table s /\ initialized s' = initialized s))
    end.
Proof.
  intros Hc. unfold get_api. rewrite Hc, decide_True by done. simpl.
  replace (0 + 1) with 1 by lia. rewrite wrap_long_one.
  destruct (load_functions_spec host env rmajor rbugfix names (set_ref_count 1 s))
    as (ok & s1 & -> & C & B & Hres).
  replace (ref_count_ (set_ref_count 1 s)) with 1 in C by (by open_state s).
  replace (static_error_buffer (set_ref_count 1 s)) with (static_error_buffer s) in B
    by (by open_state s).
  replace (os_log (set_ref_count 1 s)) with (os_log s) in Hres by (by open_state s).
  replace (g_avs_api (set_ref_count 1 s)) with (g_avs_api s) in Hres by (by open_state s).
  replace (table (set_ref_count 1 s)) with (table s) in Hres by (by open_state s).
  replace (initialized (set_ref_count 1 s)) with (initialized s) in Hres by (by open_state s).
  simpl. destruct ok; simpl.
  - eexists instance_table, _. split; [reflexivity|].
    destruct Hres as (?&?&?&?&?&?&?&?).
    open_state s1. fields. unfold slot in *. fields.
    split; [done|]. split; [done|]. by repeat split.
  - eexists null_table, _. split; [reflexivity|].
    destruct Hres as (Hn & Hh & Hm & Hl & Hu).
    rewrite C. replace (1 - 1) with 0 by lia. rewrite wrap_long_zero.
    open_state s1. unfold unloaded in *. fields.
    repeat split; try done. destruct Hu as [(_&?&?&_)|(?&?&?&_)]; [left|right]; done.
Qed.

(** A later caller of a loader that is initialised. *)
Lemma get_api_later host env rmajor rbugfix names s :
  ref_count_ s <> 0 -> initialized s = true ->
  get_api host env rmajor rbugfix names s =
  let s1 := emit_all (version_ok_calls env rmajor s)
              (set_ref_count (wrap_long platform (ref_count_ s + 1)) s) in
  match version_ok host env rmajor rbugfix s with
  | None => None
  | Some (true, _, _) => Some (instance_table, set_g_avs_api instance_table s1)
  | Some (false, major, bugfix) =>
      Some (null_table,
            unload_library (set_message (version_error_msg s rmajor rbugfix major bugfix) s1))
  end.
Proof.
  intros Hc Hi. unfold get_api. rewrite decide_False by done.
  replace (initialized (set_ref_count _ s)) with (initialized s) by (by open_state s).
  rewrite Hi. simpl.
  replace (version_ok host env rmajor rbugfix (set_ref_count _ s))
    with (version_ok host env rmajor rbugfix s) by (by open_state s).
  replace (version_ok_calls env rmajor (set_ref_count _ s))
    with (version_ok_calls env rmajor s) by (by open_state s).
  destruct (version_ok host env rmajor rbugfix s) as [[[[|] major] bugfix]|]; simpl; done.
Qed.

(** A later caller whose requirement the loaded table does not meet: the
    library is unloaded under the callers that hold it, and the reference
    this call added stays in the count. *)
Lemma get_api_later_mismatch host env rmajor rbugfix names s :
  ref_count_ s <> 0 -> initialized s = true -> handle s <> 0 ->
  slot s "avs_check_version" <> 0 \/ slot s "avs_get_env_property" <> 0 ->
  ~ requirement_met host env rmajor rbugfix s ->
  exists s', get_api host env rmajor rbugfix names s = Some (null_table, s') /\
    unloaded s' /\ message s' <> "" /\
    ref_count_ s' = wrap_long platform (ref_count_ s + 1) /\
    os_log s' = EvClose (handle s) :: version_ok_calls env rmajor s ++ os_log s /\
    message s' =
      (if decide (slot s "avs_get_env_property" = 0)
       then snprintf 200 (degraded_version_message rmajor rbugfix)
       else snprintf 200 (precise_version_message rmajor rbugfix
                            (host_major host env) (host_bugfix host env))).
Proof.
  intros Hc Hi Hh Hslots Hnot. rewrite get_api_later by done.
  destruct (version_ok_defined host env rmajor rbugfix s Hslots) as [[[ok major] bugfix] V].
  rewrite V. destruct (version_ok_verdict _ _ _ _ _ _ _ _ V) as [Verdict Numbers].
  destruct ok; [tauto|]. eexists. split; [reflexivity|].
  set (s1 := set_message _ _).
  assert (handle s1 = handle s /\ ref_count_ s1 = wrap_long platform (ref_count_ s + 1) /\
          os_log s1 = version_ok_calls env rmajor s ++ os_log s /\
          message s1 = version_error_msg s rmajor rbugfix major bugfix)
    as (H1 & C1 & L1 & M1).
  { unfold s1. open_state s. fields. by repeat split. }
  clearbody s1.
  destruct (unload_library_closed s1) as (U & M & C & _); [congruence|].
  destruct (unload_library_log s1) as (L & _); [congruence|].
  split; [done|]. split. { rewrite M, M1. apply version_error_msg_nonempty. }
  split; [congruence|]. split; [congruence|].
  rewrite M, M1. unfold version_error_msg.
  destruct (decide (slot s "avs_get_env_property" = 0)); [done|].
  by destruct Numbers as [-> ->].
Qed.

Lemma get_api_success host env rmajor rbugfix names s s' :
  get_api host env rmajor rbugfix names s = Some (instance_table, s') ->
  ref_count_ s' = wrap_long platform (ref_count_ s + 1) /\
  initialized s' = true /\ g_avs_api s' = instance_table /\
  static_error_buffer s' = static_error_buffer s /\
  (ref_count_ s = 0 ->
     handle s' = host_open host /\ host_open host <> 0 /\ message s' = "" /\
     open_balance (os_log s') = open_balance (os_log s) + 1) /\
  (ref_count_ s <> 0 ->
     instance_ s' = instance_ s /\ os_log s' = version_ok_calls env rmajor s ++ os_log s).
Proof.
  intros H. destruct (decide (ref_count_ s = 0)) as [Hc|Hc].
  - destruct (get_api_first host env rmajor rbugfix names s Hc) as (r & s1 & E & B & Hres).
    rewrite E in H. injection H as -> ->.
    destruct Hres as (Hl & C & Hh & Hi & Hm & Hg & Hb & _).
    rewrite Hc. change (0 + 1) with 1. rewrite wrap_long_one. repeat split; try done.
    apply Hl.
  - destruct (initialized s) eqn:Hi.
    + rewrite get_api_later in H by done.
      destruct (version_ok host env rmajor rbugfix s) as [[[[|] major] bugfix]|];
        simpl in H; try done.
      injection H as <-. open_state s. fields. by repeat split.
    + unfold get_api in H. rewrite decide_False in H by done.
      replace (initialized (set_ref_count _ s)) with (initialized s) in H by (by open_state s).
      by rewrite Hi in H.
Qed.

Lemma version_satisfied_dec major bugfix rmajor rbugfix :
  {version_satisfied major bugfix rmajor rbugfix} + {~ version_satisfied major bugfix rmajor rbugfix}.
Proof.
  unfold version_satisfied.
  destruct (Z_gt_dec major rmajor); [left; lia|].
  destruct (Z.eq_dec major rmajor); [|right; lia].
  destruct (Z_ge_dec bugfix rbugfix); [left; lia|right; lia].
Defined.

Lemma host_satisfies_dec host env rmajor rbugfix :
  {host_satisfies host env rmajor rbugfix} + {~ host_satisfies host env rmajor rbugfix}.
Proof.
  unfold host_satisfies. case_decide; [apply Z.eq_dec|apply version_satisfied_dec].
Defined.

Lemma load_failure_iff host env rmajor rbugfix names :
  load_failure host env rmajor rbugfix names <-> ~ load_succeeds host env rmajor rbugfix names.
Proof.
  unfold load_succeeds. split.
  - intros F (Ho & Hcv & Hae & Hv & Hall). rewrite Forall_forall in Hall.
    destruct F as [?|[?|?]|?|n Hn Hk Hs|n Hn Hk]; try done.
    + by destruct (Hall n Hn).
    + by destruct (Hall n Hn).
  - intros Hnot.
    destruct (decide (host_open host = 0)) as [?|Ho]; [by apply library_not_found|].
    destruct (decide (host_sym host "avs_check_version" = 0)) as [?|Hcv];
      [apply missing_bootstrap_symbol; by left|].
    destruct (decide (host_sym host "avs_at_exit" = 0)) as [?|Hae];
      [apply missing_bootstrap_symbol; by right|].
    destruct (host_satisfies_dec host env rmajor rbugfix) as [Hv|?];
      [|by apply version_insufficient].
    assert (~ Forall (resolvable host) names) as Hall by tauto.
    assert (forall x, Decision (resolvable host x)) as Hdec.
    { intros x. unfold resolvable. apply _. }
    apply (not_Forall_Exists _) in Hall. apply Exists_exists in Hall as (bad & Hn & Hr).
    destruct (decide (view_chars bad ∈ known)) as [Hk|Hk]; [|by eapply unknown_required_name].
    eapply missing_required_symbol; [done..|].
    destruct (decide (host_sym host (c_str (data bad)) = 0)); [done|].
    exfalso. apply Hr. by split.
Qed.

(** ** Properties of the state machine *)

(** C4. A first caller whose load sequence fails, for any of the five
    reasons (library not found, a required bootstrap symbol missing, version
    insufficient, a required caller symbol missing, that is a listed
    required view whose [data()] C string the host does not export, an
    unknown required name), gets null; the count is back at its value before the call, and
    the loader is [UNLOADED]: no handle, a zeroed table, the flag cleared,
    a null shared accessor, and as many handles open as before the call.
    Every first call that returns null fails for one of the five reasons. *)
Theorem first_caller_failure_rolls_back host env rmajor rbugfix names s :
  ref_count_ s = 0 -> table s = ∅ -> initialized s = false ->
  exists r s', get_api host env rmajor rbugfix names s = Some (r, s') /\
    (load_failure host env rmajor rbugfix names <-> r = null_table) /\
    (r = null_table ->
       ref_count_ s' = ref_count_ s /\ unloaded s' /\
       open_balance (os_log s') = open_balance (os_log s)).
Proof.
  intros Hc Ht Hi.
  destruct (get_api_first host env rmajor rbugfix names s Hc) as (r & s' & E & _ & Hres).
  exists r, s'. split; [done|]. rewrite load_failure_iff. destruct r.
  - destruct Hres as (Hn & C & Hh & Hm & Hg & Hl & Hu).
    split; [tauto|]. intros _. unfold unloaded.
    repeat split; try done; try congruence.
    + destruct Hu as [[? _]|(_ & ? & _)]; congruence.
    + destruct Hu as [[_ ?]|(_ & _ & ?)]; congruence.
  - destruct Hres as (Hs & _). split; [|done]. split; [tauto|done].
Qed.

(** C8. A caller that finds the count above zero and the loader not
    initialised releases the reference it has just added and gets null:
    the whole state, the count and the log of library calls included, is
    the one before the call. *)
Theorem later_caller_backs_off_when_not_initialized host env rmajor rbugfix names s :
  0 < ref_count_ s -> ref_count_ s <= LONG_MAX platform -> initialized s = false ->
  get_api host env rmajor rbugfix names s =
    Some (null_table, cleanup_callback (set_ref_count (wrap_long platform (ref_count_ s + 1)) s)) /\
  cleanup_callback (set_ref_count (wrap_long platform (ref_count_ s + 1)) s) = s.
Proof.
  intros Hpos Hmax Hi. split.
  - unfold get_api. rewrite decide_False by lia.
    change (initialized (set_ref_count _ s)) with (initialized s). by rewrite Hi.
  - unfold cleanup_callback.
    change (ref_count_ (set_ref_count ?n s)) with n.
    assert (wrap_long platform (wrap_long platform (ref_count_ s + 1) - 1) = ref_count_ s) as Hback.
    { replace (wrap_long platform (ref_count_ s + 1) - 1)
        with (wrap_long platform (ref_count_ s + 1) + -1) by lia.
      rewrite wrap_long_add. replace (ref_count_ s + 1 + -1) with (ref_count_ s) by lia.
      apply wrap_long_id. lia. }
    rewrite decide_False.
    + rewrite Hback. by open_state s.
    + intros H1. rewrite H1 in Hback. change (1 - 1) with 0 in Hback.
      rewrite wrap_long_zero in Hback. lia.
Qed.

Lemma version_ok_met host env rmajor rbugfix s :
  requirement_met host env rmajor rbugfix s ->
  exists major bugfix, version_ok host env rmajor rbugfix s = Some (true, major, bugfix).
Proof.
  intros Hmet.
  destruct (version_ok host env rmajor rbugfix s) as [[[ok major] bugfix]|] eqn:V.
  - destruct (version_ok_verdict _ _ _ _ _ _ _ _ V) as [Verdict _].
    apply Verdict in Hmet. subst ok. eauto.
  - apply version_ok_none in V as [Hp Hc]. unfold requirement_met in Hmet.
    rewrite decide_True in Hmet by done. tauto.
Qed.

(** C5. A call made while the count is above zero and the loader is
    initialised, with a requirement the loaded table satisfies, returns the
    table without a single call to the platform library: what it adds to
    the log is exactly the version queries of its check (the two property
    queries, or the one version check), so nothing is opened and nothing
    resolved; it does not touch the loader instance, its table included;
    and the table returned is the one every successful call returns. *)
Theorem later_caller_reuses_loaded_table host env rmajor rbugfix names s :
  0 < ref_count_ s -> initialized s = true ->
  requirement_met host env rmajor rbugfix s ->
  exists s', get_api host env rmajor rbugfix names s = Some (instance_table, s') /\
    os_log s' = version_ok_calls env rmajor s ++ os_log s /\
    Forall is_version_query (version_ok_calls env rmajor s) /\
    instance_ s' = instance_ s /\
    ref_count_ s' = wrap_long platform (ref_count_ s + 1) /\
    g_avs_api s' = instance_table /\
    forall host2 env2 rmajor2 rbugfix2 names2 s2 r2 s2',
      get_api host2 env2 rmajor2 rbugfix2 names2 s2 = Some (r2, s2') ->
      r2 <> null_table -> r2 = instance_table.
Proof.
  intros Hpos Hi Hmet.
  destruct (version_ok_met _ _ _ _ _ Hmet) as (major & bugfix & V).
  rewrite get_api_later by (done || lia). rewrite V. simpl.
  eexists. split; [reflexivity|]. split; [done|].
  split; [apply version_ok_calls_queries|]. repeat split.
  intros ? ? ? ? ? ? r2 ? _ Hr. by destruct r2.
Qed.

Lemma cleanup_callback_last s :
  ref_count_ s = 1 -> handle s <> 0 ->
  instance_ (cleanup_callback s) =
    Loader 0 ∅ (message s) false /\
  ref_count_ (cleanup_callback s) = 0 /\
  g_avs_api (cleanup_callback s) = null_table /\
  static_error_buffer (cleanup_callback s) = static_error_buffer s /\
  os_log (cleanup_callback s) = EvClose (handle s) :: os_log s.
Proof.
  intros Hc Hh. unfold cleanup_callback, unload_library. rewrite Hc.
  change (1 - 1) with 0. rewrite wrap_long_zero. simpl.
  change (handle (set_ref_count 0 s)) with (handle s).
  rewrite decide_False by done. by open_state s.
Qed.

(** C6. A successful load by a first caller followed by the teardown that
    takes the count from 1 to 0 leaves the loader as it is before any
    load: null handle, empty table, cleared flag, empty message, null
    shared accessor and count 0; the handle that was opened is closed. *)
Theorem load_then_teardown_restores_initial host env rmajor rbugfix names s s1 :
  ref_count_ s = 0 ->
  get_api host env rmajor rbugfix names s = Some (instance_table, s1) ->
  ref_count_ s1 = 1 /\
  instance_ (cleanup_callback s1) = initial_loader /\
  ref_count_ (cleanup_callback s1) = ref_count_ initial_process /\
  g_avs_api (cleanup_callback s1) = g_avs_api initial_process /\
  static_error_buffer (cleanup_callback s1) = static_error_buffer s /\
  os_log (cleanup_callback s1) = EvClose (host_open host) :: os_log s1 /\
  open_balance (os_log (cleanup_callback s1)) = open_balance (os_log s).
Proof.
  intros Hc H.
  destruct (get_api_success _ _ _ _ _ _ _ H) as (C & Hi & Hg & Hb & Hfirst & _).
  destruct (Hfirst Hc) as (Hh & Ho & Hm & Hl).
  rewrite Hc in C. change (0 + 1) with 1 in C. rewrite wrap_long_one in C.
  destruct (cleanup_callback_last s1 C) as (I & C' & G & B & L); [congruence|].
  rewrite I, C', G, B, L, Hm, Hh. simpl. repeat split; try done. lia.
Qed.

Lemma load_functions_version_stage host env rmajor rbugfix names s :
  host_open host <> 0 ->
  host_sym host "avs_check_version" <> 0 -> host_sym host "avs_at_exit" <> 0 ->
  exists ok major bugfix,
    version_ok host env rmajor rbugfix (at_version_check host s) = Some (ok, major, bugfix) /\
    (ok = true <-> host_satisfies host env rmajor rbugfix) /\
    (if decide (host_sym host "avs_get_env_property" = 0)
     then major = rmajor /\ bugfix = 0
     else major = host_major host env /\ bugfix = host_bugfix host env) /\
    load_functions host env rmajor rbugfix names s =
      if ok then load_after_version host env names (after_version_check host env rmajor s)
      else Some (false, unload_library (set_message
             (version_error_msg (at_version_check host s) rmajor rbugfix major bugfix)
             (after_version_check host env rmajor s))).
Proof.
  intros Ho Hcv Hae. unfold after_version_check, at_version_check, load_functions.
  destruct (open_library_spec host s) as (Oh & _).
  set (s1 := open_library host s) in *. clearbody s1.
  rewrite decide_False by congruence.
  pose proof (load_essentials_slots host s1) as (Scv & Sae & Sgp).
  pose proof (load_essentials_result host s1) as R.
  destruct (load_essentials host s1) as [eok s2]. simpl in *.
  assert (eok = true) as -> by (by apply R). simpl.
  destruct (version_ok_defined host env rmajor rbugfix s2) as [[[ok major] bugfix] V].
  { left. congruence. }
  destruct (version_ok_verdict _ _ _ _ _ _ _ _ V) as [Verdict Numbers].
  exists ok, major, bugfix. rewrite V. simpl. split; [done|]. split.
  { rewrite Verdict. unfold requirement_met, host_satisfies. rewrite Sgp, Scv.
    destruct (decide (host_sym host "avs_get_env_property" = 0)); tauto. }
  split; [by rewrite Sgp in Numbers|]. by destruct ok.
Qed.

(** C3. At the version check of the load sequence (the library is open
    and both bootstrap symbols are resolved): with the property getter
    resolved, the check passes exactly when the host's major number is
    above the required one, or equal to it with a bugfix number at least
    the required one, and a failure records the message with the detected
    numbers; without the property getter, the check passes exactly when
    [avs_check_version], called with the required major number, returns
    zero, and a failure records the message that names no detected
    number. A check that passes hands over to the rest of the sequence; a
    check that fails makes [load_functions] return false, unloaded. The
    calls the check makes into the library are the two property queries
    in the first case, the one version check in the second. *)
Theorem version_negotiation host env rmajor rbugfix names s :
  host_open host <> 0 ->
  host_sym host "avs_check_version" <> 0 -> host_sym host "avs_at_exit" <> 0 ->
  (host_sym host "avs_get_env_property" <> 0 ->
     (version_satisfied (host_major host env) (host_bugfix host env) rmajor rbugfix ->
        version_ok host env rmajor rbugfix (at_version_check host s) =
          Some (true, host_major host env, host_bugfix host env) /\
        load_functions host env rmajor rbugfix names s =
          load_after_version host env names (after_version_check host env rmajor s)) /\
     (~ version_satisfied (host_major host env) (host_bugfix host env) rmajor rbugfix ->
        version_ok host env rmajor rbugfix (at_version_check host s) =
          Some (false, host_major host env, host_bugfix host env) /\
        exists s', load_functions host env rmajor rbugfix names s = Some (false, s') /\
          unloaded s' /\
          message s' = snprintf 200 (precise_version_message rmajor rbugfix
                                       (host_major host env) (host_bugfix host env))) /\
     os_log (after_version_check host env rmajor s) =
       EvGetEnvProperty env AVS_AEP_INTERFACE_BUGFIX ::
       EvGetEnvProperty env AVS_AEP_INTERFACE_VERSION :: os_log (at_version_check host s)) /\
  (host_sym host "avs_get_env_property" = 0 ->
     (host_check_version host env rmajor = 0 ->
        version_ok host env rmajor rbugfix (at_version_check host s) =
          Some (true, rmajor, 0) /\
        load_functions host env rmajor rbugfix names s =
          load_after_version host env names (after_version_check host env rmajor s)) /\
     (host_check_version host env rmajor <> 0 ->
        version_ok host env rmajor rbugfix (at_version_check host s) =
          Some (false, rmajor, 0) /\
        exists s', load_functions host env rmajor rbugfix names s = Some (false, s') /\
          unloaded s' /\
          message s' = snprintf 200 (degraded_version_message rmajor rbugfix)) /\
     os_log (after_version_check host env rmajor s) =
       EvCheckVersion env rmajor :: os_log (at_version_check host s)).
Proof.
  intros Ho Hcv Hae.
  destruct (load_functions_version_stage host env rmajor rbugfix names s Ho Hcv Hae)
    as (ok & major & bugfix & V & Verdict & Numbers & L).
  assert (handle (at_version_check host s) <> 0) as Hh.
  { unfold at_version_check. destruct (load_essentials_frame host (open_library host s)) as (-> & _).
    by destruct (open_library_spec host s) as (-> & _). }
  assert (slot (at_version_check host s) "avs_get_env_property" =
          host_sym host "avs_get_env_property") as Sgp.
  { unfold at_version_check. apply load_essentials_slots. }
  assert (handle (after_version_check host env rmajor s) <> 0) as Hh'.
  { unfold after_version_check.
    by destruct (version_check_logged env rmajor (at_version_check host s)) as ((-> & _) & _). }
  assert (forall m, let s' := unload_library
                      (set_message m (after_version_check host env rmajor s)) in
                    unloaded s' /\ message s' = m) as Hfail.
  { intros m. simpl. set (s2 := after_version_check host env rmajor s) in *. clearbody s2.
    destruct (unload_library_closed (set_message m s2)) as (U & M & _); [by open_state s2|].
    split; [done|]. rewrite M. by open_state s2. }
  assert (os_log (after_version_check host env rmajor s) =
          version_ok_calls env rmajor (at_version_check host s) ++
          os_log (at_version_check host s)) as Hlog.
  { unfold after_version_check. apply version_check_logged. }
  unfold version_ok_calls in Hlog. rewrite Sgp in Hlog.
  unfold host_satisfies in Verdict. unfold version_error_msg in L. rewrite Sgp in L.
  destruct (decide (host_sym host "avs_get_env_property" = 0)) as [Hgp|Hgp];
    destruct Numbers as [-> ->]; (split; intros Hgp'; [try done..]);
    (split; [intros Hv; assert (ok = true) as -> by tauto; done|]);
    (split; [intros Hv|exact Hlog]);
    (destruct ok; [tauto|]; split; [done|]; eexists; split; [exact L|]; apply Hfail).
Qed.

(** C7, as the code has it. A first caller whose required list contains a
    view that is not listed gets null, with the count back at 0, no handle
    held, as many handles open as before and a message recorded; when the
    sequence reaches that view (the library opens, both bootstrap symbols
    resolve, the version is sufficient and every required view before it
    is listed and the C string at its [data()] resolves), the message
    recorded is the internal error that names the view, and the last
    library call is the close of the handle just opened. *)
Theorem unknown_required_name_fails_load host env rmajor rbugfix pre bad post s :
  ref_count_ s = 0 -> view_chars bad ∉ known ->
  exists s', get_api host env rmajor rbugfix (pre ++ bad :: post) s = Some (null_table, s') /\
    ref_count_ s' = 0 /\ handle s' = 0 /\
    open_balance (os_log s') = open_balance (os_log s) /\
    message s' <> "" /\
    (host_open host <> 0 ->
     host_sym host "avs_check_version" <> 0 -> host_sym host "avs_at_exit" <> 0 ->
     host_satisfies host env rmajor rbugfix ->
     Forall (resolvable host) pre ->
     message s' =
       "Internal Error: Unknown function requested as required: " +:+ view_chars bad /\
     exists earlier, os_log s' = EvClose (host_open host) :: earlier).
Proof.
  intros Hc Hbad.
  destruct (get_api_first host env rmajor rbugfix (pre ++ bad :: post) s Hc)
    as (r & s' & E & _ & Hres).
  destruct r.
  2:{ destruct Hres as ((_ & _ & _ & _ & Hall) & _). exfalso.
      rewrite Forall_forall in Hall. destruct (Hall bad) as [Hin _]; [|done].
      set_solver. }
  destruct Hres as (_ & C & Hh & Hm & _ & Hl & _).
  exists s'. split; [done|]. split; [done|]. split; [done|]. split; [done|].
  split; [done|]. intros Ho Hcv Hae Hv Hpre.
  unfold get_api in E. rewrite Hc, decide_True in E by done. simpl in E.
  destruct (load_functions_version_stage host env rmajor rbugfix (pre ++ bad :: post)
              (set_ref_count (wrap_long platform (0 + 1)) s) Ho Hcv Hae)
    as (ok & major & bugfix & _ & Verdict & _ & L).
  assert (ok = true) as -> by tauto. rewrite L in E. clear L.
  set (s2 := after_version_check host _ _ _) in E.
  assert (handle s2 = host_open host) as Hh2.
  { unfold s2, after_version_check.
    destruct (version_check_logged env rmajor (at_version_check host
      (set_ref_count (wrap_long platform (0 + 1)) s))) as ((-> & _) & _).
    unfold at_version_check.
    destruct (load_essentials_frame host (open_library host
      (set_ref_count (wrap_long platform (0 + 1)) s))) as (-> & _).
    apply open_library_spec. }
  clearbody s2. unfold load_after_version in E.
  destruct (load_required_unknown host pre bad post s2 Hpre Hbad) as (s0 & (Fh & _) & R).
  rewrite R in E. simpl in E. injection E as <-.
  set (s3 := set_message _ s0).
  assert (handle s3 = host_open host) as Hh3 by (unfold s3; open_state s0; fields; congruence).
  destruct (unload_library_log s3) as (Log & Msg); [congruence|].
  split.
  - change (message (unload_library s3) =
            "Internal Error: Unknown function requested as required: " +:+ view_chars bad).
    rewrite Msg. unfold s3. by open_state s0.
  - exists (os_log s3).
    change (os_log (unload_library s3) = EvClose (host_open host) :: os_log s3).
    by rewrite Log, Hh3.
Qed.

(** ** Sequences of calls and teardowns *)

Lemma all_succeed_count cs s s' :
  all_succeed cs s s' ->
  0 <= ref_count_ s -> ref_count_ s + Z.of_nat (length cs) <= LONG_MAX platform ->
  (0 < ref_count_ s -> ready s) ->
  ref_count_ s' = ref_count_ s + Z.of_nat (length cs) /\ (0 < ref_count_ s' -> ready s').
Proof.
  induction 1 as [s|c cs s s1 s2 Hcall Hrest IH]; intros Hpos Hmax Hready.
  - simpl. split; [lia|done].
  - simpl length in *. unfold get_api_call in Hcall.
    destruct (get_api_success _ _ _ _ _ _ _ Hcall) as (C & Hi & _ & _ & Hfirst & Hlater).
    rewrite wrap_long_id in C by (pose proof LONG_MAX_large; lia).
    destruct IH as [IHc IHr]; [lia|lia| |].
    + intros _. unfold ready. destruct (decide (ref_count_ s = 0)) as [H0|H0].
      * destruct (Hfirst H0) as (Hh & Ho & Hm & _). split; [congruence|done].
      * destruct (Hlater H0) as [Hinst _]. destruct Hready as (?&?&?); [lia|].
        unfold handle, message in *. rewrite Hinst. done.
    + split; [lia|done].
Qed.

Lemma cleanup_callback_above s :
  1 < ref_count_ s <= LONG_MAX platform ->
  cleanup_callback s = set_ref_count (ref_count_ s - 1) s.
Proof.
  intros Hc. unfold cleanup_callback. rewrite decide_False by lia.
  rewrite wrap_long_id by lia. done.
Qed.

Lemma teardowns_partial (k : nat) : forall s,
  Z.of_nat k < ref_count_ s <= LONG_MAX platform ->
  teardowns k s = set_ref_count (ref_count_ s - Z.of_nat k) s.
Proof.
  induction k as [|k IH]; intros s Hc.
  - simpl. replace (ref_count_ s - Z.of_nat 0) with (ref_count_ s) by lia. by open_state s.
  - unfold teardowns in *. simpl Nat.iter. rewrite IH by lia.
    rewrite cleanup_callback_above by (simpl; lia). simpl ref_count_.
    replace (ref_count_ s - Z.of_nat k - 1) with (ref_count_ s - Z.of_nat (S k)) by lia.
    by open_state s.
Qed.

(** C2. After [N] successful calls in a row, the first one made with the
    count at 0, the count is [N]. Each of the first [N - 1] teardown
    notifications that follow only decrements it; after the [N]th the
    count is 0, and that decrement from 1 to 0 unloads the library: the
    handle is closed and cleared, the table zeroed, the flag cleared and
    the shared accessor nulled. *)
Theorem count_follows_calls_and_teardowns cs s s' :
  ref_count_ s = 0 ->
  Z.of_nat (length cs) <= LONG_MAX platform ->
  all_succeed cs s s' ->
  ref_count_ s' = Z.of_nat (length cs) /\
  (forall k : nat, (k < length cs)%nat ->
     teardowns k s' = set_ref_count (Z.of_nat (length cs) - Z.of_nat k) s') /\
  ref_count_ (teardowns (length cs) s') = 0 /\
  ((0 < length cs)%nat ->
     handle s' <> 0 /\
     ref_count_ (teardowns (length cs - 1) s') = 1 /\
     instance_ (teardowns (length cs) s') = initial_loader /\
     g_avs_api (teardowns (length cs) s') = null_table /\
     os_log (teardowns (length cs) s') = EvClose (handle s') :: os_log s').
Proof.
  intros Hc Hmax Hall.
  destruct (all_succeed_count _ _ _ Hall) as [C Hready]; [lia|lia|lia|].
  rewrite Hc in C. simpl in C. split; [done|].
  assert (forall k : nat, (k < length cs)%nat ->
     teardowns k s' = set_ref_count (Z.of_nat (length cs) - Z.of_nat k) s') as Hpartial.
  { intros k Hk. rewrite teardowns_partial by lia. by rewrite C. }
  split; [done|].
  destruct (length cs) as [|n] eqn:En.
  - split; [done|]. intros ?. lia.
  - assert (teardowns (S n) s' = cleanup_callback (set_ref_count 1 s')) as Hlast.
    { unfold teardowns at 1. simpl. fold (teardowns n s'). rewrite Hpartial by lia.
      do 2 f_equal. lia. }
    destruct Hready as (Hh & Hi & Hm); [lia|].
    destruct (cleanup_callback_last (set_ref_count 1 s')) as (I & C' & G & _ & L);
      [done|done|].
    rewrite Hlast. split; [done|]. intros _. split; [done|].
    replace (S n - 1)%nat with n by lia. rewrite Hpartial by lia.
    split; [simpl; lia|]. rewrite I, G, L.
    change (message (set_ref_count 1 s')) with (message s'). rewrite Hm. done.
Qed.

(** ** [get_last_error] *)

Lemma read_c_string_strncpy (n : nat) : forall src,
  read_c_string (strncpy src n ++ [zero]) = string_take n (c_str src).
Proof.
  induction n as [|n IH]; intros src; [done|].
  destruct src as [|c r]; simpl; [done|].
  destruct (Ascii.eqb c zero) eqn:E; simpl; [done|]. rewrite E. by rewrite IH.
Qed.

Lemma length_strncpy (n : nat) : forall src, length (strncpy src n) = n.
Proof.
  induction n as [|n IH]; intros src; [done|].
  destruct src as [|c r]; simpl; [by rewrite IH|].
  destruct (Ascii.eqb c zero); simpl; by rewrite IH.
Qed.

Lemma string_take_length (n : nat) : forall s, (String.length (string_take n s) <= n)%nat.
Proof.
  induction n as [|n IH]; intros [|c r]; simpl; try lia. specialize (IH r). lia.
Qed.

Lemma string_take_all (n : nat) : forall s, (String.length s <= n)%nat -> string_take n s = s.
Proof.
  induction n as [|n IH]; intros [|c r]; simpl; try done; try lia.
  intros H. rewrite IH; [done|lia].
Qed.

Lemma c_str_nul_free s : nul_free (c_str s).
Proof.
  induction s as [|c r IH]; simpl; [done|].
  destruct (Ascii.eqb c zero) eqn:E; simpl; [done|]. split; [|done].
  by apply Ascii.eqb_neq.
Qed.

Lemma c_str_id s : nul_free s -> c_str s = s.
Proof.
  induction s as [|c r IH]; simpl; [done|]. intros [Hc Hr].
  apply Ascii.eqb_neq in Hc. rewrite Hc. by rewrite IH.
Qed.

Lemma string_take_nul_free (n : nat) : forall s, nul_free s -> nul_free (string_take n s).
Proof.
  induction n as [|n IH]; intros [|c r]; simpl; try done. intros [? ?]. auto.
Qed.

(** C9. [get_last_error] returns a NUL-free string of at most 299
    characters. With no message stored it is the fixed fallback text, and
    nothing changes. Otherwise it is the C string left in the 300-byte
    static buffer, whose last byte is NUL: the stored message cut at 299
    characters, and the stored message itself when that has fewer than 300
    characters and no NUL among them. *)
Theorem get_last_error_bounded s :
  (String.length (get_last_error s).1 <= 299)%nat /\
  nul_free (get_last_error s).1 /\
  (message s = "" ->
     (get_last_error s).1 = "Unknown Avisynth C API loading error." /\
     (get_last_error s).2 = s) /\
  (message s <> "" ->
     (get_last_error s).1 = read_c_string (static_error_buffer (get_last_error s).2) /\
     length (static_error_buffer (get_last_error s).2) = 300%nat /\
     static_error_buffer (get_last_error s).2 !! 299%nat = Some zero /\
     (get_last_error s).1 = string_take 299 (c_str (message s)) /\
     ((String.length (message s) < 300)%nat -> nul_free (message s) ->
        (get_last_error s).1 = message s) /\
     instance_ (get_last_error s).2 = instance_ s /\
     ref_count_ (get_last_error s).2 = ref_count_ s /\
     g_avs_api (get_last_error s).2 = g_avs_api s /\
     os_log (get_last_error s).2 = os_log s).
Proof.
  unfold get_last_error. destruct (decide (message s = "")) as [Hm|Hm]; cbn [fst snd].
  - split; [vm_compute; lia|]. split; [vm_compute; by repeat split|]. done.
  - change (300 - 1)%nat with 299%nat.
    change (static_error_buffer (set_static_error_buffer ?b s)) with b.
    rewrite read_c_string_strncpy.
    split; [apply string_take_length|].
    split; [apply string_take_nul_free, c_str_nul_free|].
    split; [done|]. intros _.
    split; [done|].
    split; [rewrite length_app, length_strncpy; done|].
    split.
    { rewrite lookup_app_r; rewrite length_strncpy; [|lia]. done. }
    split; [done|].
    split.
    { intros Hlen Hfree. rewrite c_str_id by done. apply string_take_all. lia. }
    by open_state s.
Qed.

(** ** Runs from the initial state *)

Lemma get_api_preserves host env rmajor rbugfix names s n :
  consistent s -> count_within n s -> n < LONG_MAX platform ->
  exists r s', get_api host env rmajor rbugfix names s = Some (r, s') /\
    consistent s' /\ count_within (n + 1) s'.
Proof.
  intros (Hinit & Hnull & Hzero) [Hlo Hhi] Hn. unfold count_within, consistent.
  destruct (decide (ref_count_ s = 0)) as [Hc|Hc].
  { destruct (get_api_first host env rmajor rbugfix names s Hc) as (r & s' & E & _ & Hres).
    exists r, s'. split; [done|]. destruct r.
    - destruct Hres as (_ & C & Hh & _ & Hg & _ & Hu).
      destruct (Hnull (Hzero ltac:(lia))) as (_ & Ht & Hi & _).
      assert (table s' = ∅ /\ initialized s' = false) as [Ht' Hi'].
      { destruct Hu as [?|(_ & ? & ?)]; [done|]. split; congruence. }
      split; [|lia]. split; [intros ?; congruence|]. split; [|done].
      intros _. by repeat split.
    - destruct Hres as ((Ho & _) & C & Hh & Hi & Hm & _ & _ & Hcv & _). split; [|lia].
      split; [|split; [intros ?; congruence|lia]].
      intros _. repeat split; try done; try lia; congruence. }
  assert (wrap_long platform (ref_count_ s + 1) = ref_count_ s + 1) as Hw
    by (apply wrap_long_id; lia).
  destruct (initialized s) eqn:Hi.
  - destruct (Hinit eq_refl) as (Hm & Hh & Hpos & Hcv).
    rewrite get_api_later by done. rewrite Hw.
    destruct (version_ok_defined host env rmajor rbugfix s) as [[[ok major] bugfix] V];
      [by left|].
    rewrite V. destruct ok.
    + eexists _, _. split; [reflexivity|]. split.
      * open_state s. unfold slot, unloaded in *. fields.
        split; [intros _; repeat split; try done; lia|]. split; [done|lia].
      * open_state s. simpl in *. lia.
    + eexists _, _. split; [reflexivity|].
      set (s1 := set_message _ _).
      destruct (unload_library_closed s1) as (U & _ & C & _).
      { unfold s1. by open_state s. }
      assert (ref_count_ s1 = ref_count_ s + 1) as C1 by (unfold s1; by open_state s).
      split; [|lia].
      destruct U as (Uh & Ut & Ui & Ug).
      split; [intros ?; congruence|]. split; [done|]. done.
  - unfold get_api. rewrite decide_False by done.
    change (initialized (set_ref_count _ s)) with (initialized s). rewrite Hi, Hw.
    eexists _, _. split; [reflexivity|].
    unfold cleanup_callback. simpl. rewrite decide_False by lia.
    replace (ref_count_ s + 1 - 1) with (ref_count_ s) by lia.
    rewrite wrap_long_id by lia.
    open_state s. unfold slot, unloaded in *. fields. split; [|lia].
    split; [intros ?; congruence|]. done.
Qed.

Lemma cleanup_callback_preserves s n :
  consistent s -> count_within n s -> n < LONG_MAX platform ->
  consistent (cleanup_callback s) /\ count_within (n + 1) (cleanup_callback s).
Proof.
  intros (Hinit & Hnull & Hzero) [Hlo Hhi] Hn.
  unfold count_within, consistent, cleanup_callback.
  rewrite wrap_long_id by lia.
  destruct (decide (ref_count_ s = 1)) as [Hc|Hc].
  - destruct (decide (handle s = 0)) as [Hh|Hh].
    + rewrite unload_library_noop by done. split; [|simpl; lia].
      destruct (Hnull Hh) as (_ & Ht & Hi & Hg).
      open_state s. unfold slot, unloaded in *. fields.
      split; [intros ?; congruence|]. done.
    + destruct (unload_library_closed (set_ref_count (ref_count_ s - 1) s))
        as (U & _ & C & _); [done|].
      split; [|rewrite C; simpl; lia].
      destruct U as (Uh & Ut & Ui & Ug).
      split; [intros ?; congruence|]. done.
  - split; [|simpl; lia].
    open_state s. unfold slot, unloaded in *. fields.
    split; [|split; [done|intros ?; apply Hzero; lia]].
    intros Hi. destruct (Hinit Hi) as (?&?&?&?). repeat split; try done. lia.
Qed.

Lemma step_preserves o s n :
  consistent s -> count_within n s -> n < LONG_MAX platform ->
  exists s', step o s = Some s' /\ consistent s' /\ count_within (n + 1) s'.
Proof.
  intros Hcons Hcount Hn. destruct o as [host env rmajor rbugfix names| |]; simpl.
  - destruct (get_api_preserves host env rmajor rbugfix names s n) as (r & s' & -> & ?);
      eauto.
  - eexists. split; [done|]. by apply cleanup_callback_preserves.
  - eexists. split; [done|]. unfold get_last_error.
    destruct Hcount. case_decide; cbn [snd]; (split; [|unfold count_within; simpl; lia]); [done|].
    destruct Hcons as (Hinit & Hnull & Hzero).
    open_state s. unfold consistent, slot, unloaded in *. fields. done.
Qed.

Lemma run_preserves ops : forall s n,
  consistent s -> count_within n s -> n + Z.of_nat (length ops) <= LONG_MAX platform ->
  exists s', run ops s = Some s' /\ consistent s' /\
    count_within (n + Z.of_nat (length ops)) s'.
Proof.
  induction ops as [|o ops IH]; intros s n Hcons Hcount Hn; simpl.
  - exists s. split; [done|]. split; [done|]. unfold count_within in *. lia.
  - simpl length in Hn.
    destruct (step_preserves o s n) as (s1 & -> & Hcons1 & Hcount1); [done|done|lia|].
    simpl. destruct (IH s1 (n + 1)) as (s' & -> & Hcons' & Hcount'); [done|done|lia|].
    exists s'. split; [done|]. split; [done|].
    unfold count_within in *. lia.
Qed.

Lemma initial_process_consistent : consistent initial_process /\ count_within 0 initial_process.
Proof.
  split; [|unfold count_within; simpl; lia].
  split; [done|]. split; [|done]. intros _. by repeat split.
Qed.

(** Up to [LONG_MAX] calls, teardowns and error queries from the initial
    state never call through a null pointer. *)
Lemma run_defined ops :
  Z.of_nat (length ops) <= LONG_MAX platform -> is_Some (run ops initial_process).
Proof.
  intros Hn. destruct initial_process_consistent as [Hcons Hcount].
  destruct (run_preserves ops initial_process 0 Hcons Hcount) as (s' & -> & _); [lia|done].
Qed.

(** Whenever such a run leaves the count at 0, the loader is [UNLOADED]:
    the next caller is a first caller of a loader as it is at start. *)
Lemma run_count_zero_unloaded ops s :
  Z.of_nat (length ops) <= LONG_MAX platform ->
  run ops initial_process = Some s -> ref_count_ s = 0 -> unloaded s.
Proof.
  intros Hn Hrun Hc. destruct initial_process_consistent as [Hcons Hcount].
  destruct (run_preserves ops initial_process 0 Hcons Hcount)
    as (s' & E & (_ & Hnull & Hzero) & _); [lia|].
  rewrite Hrun in E. injection E as <-. apply Hnull, Hzero. lia.
Qed.

(** C10. A load sequence that succeeds leaves the message empty. So, in
    any state reached from the initial one by calls, teardowns and error
    queries (fewer than [LONG_MAX] of them), a [get_api] call that
    succeeds, first caller or not, is followed by an empty message, and
    [get_last_error] then returns the fallback text, whatever message an
    earlier failure has recorded. *)
Theorem successful_call_clears_error ops s host env rmajor rbugfix names s' :
  Z.of_nat (length ops) < LONG_MAX platform ->
  run ops initial_process = Some s ->
  get_api host env rmajor rbugfix names s = Some (instance_table, s') ->
  (forall s0 s1, load_functions host env rmajor rbugfix names s0 = Some (true, s1) ->
                 message s1 = "") /\
  message s' = "" /\
  (get_last_error s').1 = "Unknown Avisynth C API loading error.".
Proof.
  intros Hn Hrun Hcall. split.
  { intros s0 s1 H0.
    destruct (load_functions_spec host env rmajor rbugfix names s0) as (ok & s2 & E & _ & _ & Hres).
    rewrite H0 in E. injection E as <- <-. apply Hres. }
  destruct initial_process_consistent as [Hcons Hcount].
  destruct (run_preserves ops initial_process 0 Hcons Hcount) as (s1 & E & Hcons1 & Hcount1);
    [lia|].
  rewrite Hrun in E. injection E as <-.
  destruct (get_api_preserves host env rmajor rbugfix names s _ Hcons1 Hcount1)
    as (r & s2 & E & Hcons2 & _); [lia|].
  rewrite Hcall in E. injection E as <- <-.
  destruct (get_api_success _ _ _ _ _ _ _ Hcall) as (_ & Hi & _).
  destruct Hcons2 as (Hinit & _). destruct (Hinit Hi) as (Hm & _).
  split; [done|]. unfold get_last_error. by rewrite decide_True.
Qed.

(** ** The table a load fills *)

Lemma load_essentials_slot host s k :
  slot (load_essentials host s).2 k =
  if decide (k ∈ bootstrap_names) then host_sym host k else slot s k.
Proof.
  unfold load_essentials.
  pose proof (load_single_function_slot host "avs_check_version" "avs_check_version" true s) as F1.
  destruct (load_single_function host "avs_check_version" _ true s) as [ok1 s1].
  pose proof (load_single_function_slot host "avs_at_exit" "avs_at_exit" true s1) as F2.
  destruct (load_single_function host "avs_at_exit" _ true s1) as [ok2 s2].
  pose proof (load_single_function_slot host "avs_get_env_property" "avs_get_env_property" false s2) as F3.
  destruct (load_single_function host "avs_get_env_property" _ false s2) as [ok3 s3].
  simpl in *. rewrite F3, F2, F1. unfold bootstrap_names.
  destruct (decide (k = "avs_get_env_property")) as [->|H3].
  { rewrite decide_True by (rewrite ?elem_of_cons, ?elem_of_nil; tauto). done. }
  destruct (decide (k = "avs_at_exit")) as [->|H2].
  { rewrite decide_True by (rewrite ?elem_of_cons, ?elem_of_nil; tauto). done. }
  destruct (decide (k = "avs_check_version")) as [->|H1].
  { rewrite decide_True by (rewrite ?elem_of_cons, ?elem_of_nil; tauto). done. }
  rewrite decide_False by (rewrite ?elem_of_cons, ?elem_of_nil; tauto). done.
Qed.

Lemma whole_c_str v : whole v -> c_str (view_chars v) = view_chars v.
Proof. unfold whole. intros <-. apply c_str_id, c_str_nul_free. Qed.

Lemma literal_whole name : nul_free name -> whole (literal name).
Proof.
  intros H. unfold whole, literal, data. simpl.
  replace (name +:+ "") with name; [by apply c_str_id|].
  clear H. induction name as [|c r IH]; [done|].
  change (String c r +:+ "") with (String c (r +:+ "")). by f_equal.
Qed.

(** The member [k] after the loop over the required views, when the
    views that name it are whole strings. *)
Lemma load_required_slot host names : forall s s' k,
  load_required host names s = (true, s') ->
  (forall v, v ∈ names -> view_chars v = k -> whole v) ->
  slot s' k = if decide (k ∈ view_chars <$> names) then host_sym host (c_str k) else slot s k.
Proof.
  induction names as [|n rest IH]; intros s s' k; cbn [load_required].
  - intros [= <-] _. rewrite decide_False by (rewrite fmap_nil, elem_of_nil; tauto). done.
  - destruct (decide (view_chars n ∈ pointer_offset_map)) as [Hin|Hin]; [|done].
    pose proof (load_single_function_slot host (data n) (view_chars n) true s k) as Sl.
    destruct (load_single_function host (data n) (view_chars n) true s) as [[|] s1]; [|done].
    simpl in Sl. intros Hrest Hwhole. rewrite (IH _ _ k Hrest), Sl.
    2:{ intros v Hv. apply Hwhole. rewrite elem_of_cons. tauto. }
    rewrite fmap_cons.
    destruct (decide (k ∈ view_chars <$> rest)) as [Hr|Hr].
    + rewrite decide_True by (rewrite elem_of_cons; tauto). done.
    + destruct (decide (k = view_chars n)) as [->|Hn].
      * rewrite decide_True by (rewrite elem_of_cons; tauto).
        assert (whole n) as Hw by (apply Hwhole; [rewrite elem_of_cons; tauto|done]).
        rewrite (whole_c_str n Hw). by rewrite Hw.
      * rewrite decide_False by (rewrite elem_of_cons; tauto). done.
Qed.

(** The member a required view names holds what the lookup of the C
    string at its [data()] answers, unless a later view names the same
    member. *)
Lemma load_required_last host pre v post : forall s s',
  load_required host (pre ++ v :: post) s = (true, s') ->
  (forall w, w ∈ post -> view_chars w <> view_chars v) ->
  slot s' (view_chars v) = host_sym host (c_str (data v)).
Proof.
  induction pre as [|n rest IH]; intros s s'; simpl app; cbn [load_required].
  - destruct (decide (view_chars v ∈ pointer_offset_map)) as [Hin|Hin]; [|done].
    pose proof (load_single_function_slot host (data v) (view_chars v) true s (view_chars v))
      as Sl.
    destruct (load_single_function host (data v) (view_chars v) true s) as [[|] s1]; [|done].
    simpl in Sl. intros Hrest Hlast.
    rewrite (load_required_slot host post s1 s' (view_chars v) Hrest).
    + rewrite decide_False; [by rewrite Sl, decide_True|].
      rewrite list_elem_of_fmap. intros (w & Hw & Hin'). by apply (Hlast w).
    + intros w Hw Heq. by destruct (Hlast w Hw).
  - destruct (decide (view_chars n ∈ pointer_offset_map)) as [Hin|Hin]; [|done].
    destruct (load_single_function host (data n) (view_chars n) true s) as [[|] s1]; [|done].
    apply IH.
Qed.

Lemma load_optional_slot host names : forall s k,
  slot (load_optional host names s) k =
  if decide (k ∈ names /\ slot s k = 0) then host_sym host (c_str k) else slot s k.
Proof.
  induction names as [|n rest IH]; intros s k; cbn [load_optional].
  - rewrite decide_False by (rewrite ?elem_of_cons, ?elem_of_nil; tauto). done.
  - rewrite IH. destruct (decide (slot s n = 0)) as [Hn|Hn].
    + pose proof (load_single_function_slot host n n false s k) as Sl.
      destruct (load_single_function host n n false s) as [ok s1]. simpl in *.
      rewrite Sl. destruct (decide (k = n)) as [->|Hk].
      * rewrite (decide_True (P := n ∈ n :: rest /\ slot s n = 0)) by (split; [rewrite ?elem_of_cons, ?elem_of_nil; tauto|done]).
        by case_decide.
      * destruct (decide (k ∈ rest /\ slot s k = 0)) as [[? ?]|Hno].
        -- rewrite decide_True by (split; [rewrite ?elem_of_cons, ?elem_of_nil; tauto|done]). done.
        -- rewrite decide_False; [done|]. intros [Hin ?]. apply Hno.
           split; [|done]. revert Hin. rewrite ?elem_of_cons, ?elem_of_nil. tauto.
    + destruct (decide (k ∈ rest /\ slot s k = 0)) as [[? ?]|Hno].
      * rewrite decide_True by (split; [rewrite ?elem_of_cons, ?elem_of_nil; tauto|done]). done.
      * rewrite decide_False; [done|]. intros [Hin ?].
        assert (k <> n) by congruence. apply Hno. split; [|done]. revert Hin. rewrite ?elem_of_cons, ?elem_of_nil. tauto.
Qed.

Lemma load_after_version_slot host env names s s' k :
  load_after_version host env names s = Some (true, s') ->
  (forall v, v ∈ names -> view_chars v = k -> whole v) ->
  slot s' k =
  if decide (k ∈ view_chars <$> names) then host_sym host (c_str k)
  else if decide (k ∈ known /\ slot s k = 0) then host_sym host (c_str k)
  else slot s k.
Proof.
  unfold load_after_version.
  destruct (load_required host names s) as [[|] s1] eqn:E; [|done].
  pose proof (load_required_slot host names s s1) as Sl.
  destruct (load_required_true _ _ _ _ E) as (_ & _ & _ & Hall).
  rewrite Forall_forall in Hall.
  unfold register_cleanup. case_decide; [done|]. simpl. intros [= <-] Hwhole.
  change (slot (set_message "" (set_initialized true
            (emit (EvAtExit env) (load_optional host known s1)))) k)
    with (slot (load_optional host known s1) k).
  rewrite load_optional_slot, (Sl k) by done.
  destruct (decide (k ∈ view_chars <$> names)) as [Hk|Hk]; [|done].
  apply list_elem_of_fmap in Hk as (v & -> & Hv).
  destruct (Hall v Hv) as [Hknown Hsym].
  assert (whole v) as Hw by (by apply Hwhole).
  rewrite (whole_c_str v Hw). rewrite Hw in Hsym. by case_decide.
Qed.

Lemma load_after_version_last host env pre v post s s' :
  load_after_version host env (pre ++ v :: post) s = Some (true, s') ->
  (forall w, w ∈ post -> view_chars w <> view_chars v) ->
  slot s' (view_chars v) = host_sym host (c_str (data v)).
Proof.
  unfold load_after_version.
  destruct (load_required host (pre ++ v :: post) s) as [[|] s1] eqn:E; [|done].
  destruct (load_required_true _ _ _ _ E) as (_ & _ & _ & Hall).
  rewrite Forall_forall in Hall.
  unfold register_cleanup. case_decide; [done|]. simpl. intros [= <-] Hlast.
  change (slot (set_message "" (set_initialized true
            (emit (EvAtExit env) (load_optional host known s1)))) (view_chars v))
    with (slot (load_optional host known s1) (view_chars v)).
  pose proof (load_required_last host pre v post s s1 E Hlast) as Sl.
  destruct (Hall v) as [_ Hsym]; [rewrite elem_of_app, elem_of_cons; tauto|].
  destruct (load_optional_spec host known s1) as (_ & _ & Keep).
  rewrite Keep; [done|]. by rewrite Sl.
Qed.

(** X1. From a state with an empty table, a first call that succeeds
    leaves in each member what the symbol lookup answers. A member that a
    required view names holds the address of the C string at that view's
    [data()], when no later view names the same member: for a view cut
    from a longer exported name this is the address of the longer name.
    Every member whose required views, if any, are whole strings holds the
    address the host has for the member's own name when it is one of the
    three bootstrap members or listed (null for a listed name the host
    lacks), and stays null otherwise. *)
Theorem loaded_table_matches_host host env rmajor rbugfix names s s' :
  ref_count_ s = 0 -> table s = ∅ ->
  get_api host env rmajor rbugfix names s = Some (instance_table, s') ->
  (forall pre v post, names = pre ++ v :: post ->
     (forall w, w ∈ post -> view_chars w <> view_chars v) ->
     slot s' (view_chars v) = host_sym host (c_str (data v))) /\
  (forall k, (forall v, v ∈ names -> view_chars v = k -> whole v) ->
     slot s' k =
     if decide (k ∈ bootstrap_names \/ k ∈ known) then host_sym host (c_str k) else 0).
Proof.
  intros Hc Ht Hcall.
  destruct (get_api_first host env rmajor rbugfix names s Hc) as (r & s1 & E & _ & Hres).
  rewrite Hcall in E. injection E as <- <-.
  destruct Hres as ((Ho & Hcv & Hae & Hv & Hall) & _).
  unfold get_api in Hcall. rewrite Hc, decide_True in Hcall by done. simpl in Hcall.
  destruct (load_functions_version_stage host env rmajor rbugfix names
              (set_ref_count (wrap_long platform (0 + 1)) s) Ho Hcv Hae)
    as (ok & major & bugfix & _ & Verdict & _ & L).
  assert (ok = true) as -> by tauto. rewrite L in Hcall. clear L.
  set (s2 := after_version_check host _ _ _) in Hcall.
  assert (forall k, slot s2 k = if decide (k ∈ bootstrap_names) then host_sym host k else 0)
    as S2.
  { intros k. unfold s2, after_version_check.
    destruct (version_check_logged env rmajor (at_version_check host
      (set_ref_count (wrap_long platform (0 + 1)) s))) as (_ & _ & _ & -> & _).
    unfold at_version_check. rewrite load_essentials_slot.
    case_decide; [done|]. open_state s. unfold slot. fields. subst. done. }
  clearbody s2.
  destruct (load_after_version host env names s2) as [[[|] s3]|] eqn:E3;
    simpl in Hcall; try done.
  injection Hcall as <-. split.
  { intros pre v post -> Hlast.
    change (slot (set_g_avs_api instance_table s3) (view_chars v))
      with (slot s3 (view_chars v)).
    by apply (load_after_version_last host env pre v post s2). }
  intros k Hwhole.
  change (slot (set_g_avs_api instance_table s3) k) with (slot s3 k).
  rewrite (load_after_version_slot _ _ _ _ _ k E3 Hwhole), S2.
  rewrite Forall_forall in Hall.
  assert (k ∈ bootstrap_names -> c_str k = k) as Hboot.
  { unfold bootstrap_names. intros Hb.
    repeat (apply elem_of_cons in Hb as [->|Hb]; [done|]). by apply elem_of_nil in Hb. }
  destruct (decide (k ∈ view_chars <$> names)) as [Hn|Hn].
  { apply list_elem_of_fmap in Hn as (v & -> & Hn).
    destruct (Hall v Hn) as [Hknown _]. rewrite decide_True by tauto. done. }
  destruct (decide (k ∈ bootstrap_names)) as [Hb|Hb].
  - rewrite (decide_True (P := k ∈ bootstrap_names \/ k ∈ known)) by tauto.
    rewrite (Hboot Hb). by case_decide.
  - destruct (decide (k ∈ known)) as [Hk|Hk].
    + rewrite decide_True by done. rewrite decide_True by tauto. done.
    + rewrite decide_False by tauto. rewrite decide_False by tauto. done.
Qed.

(** ** The calls a load makes *)

Lemma load_single_function_log host name key required s :
  os_log (load_single_function host name key required s).2 =
  EvResolve (c_str name) :: os_log s.
Proof.
  open_state s. unfold load_single_function.
  repeat case_decide; destruct required; simpl; done.
Qed.

Lemma load_essentials_log host s :
  os_log (load_essentials host s).2 =
  [EvResolve "avs_get_env_property"; EvResolve "avs_at_exit"; EvResolve "avs_check_version"]
    ++ os_log s.
Proof.
  unfold load_essentials.
  pose proof (load_single_function_log host "avs_check_version" "avs_check_version" true s) as F1.
  destruct (load_single_function host "avs_check_version" _ true s) as [ok1 s1].
  pose proof (load_single_function_log host "avs_at_exit" "avs_at_exit" true s1) as F2.
  destruct (load_single_function host "avs_at_exit" _ true s1) as [ok2 s2].
  pose proof (load_single_function_log host "avs_get_env_property" "avs_get_env_property" false s2) as F3.
  destruct (load_single_function host "avs_get_env_property" _ false s2) as [ok3 s3].
  simpl in *. rewrite F3, F2, F1. done.
Qed.

Lemma load_required_log host names : forall s ok s',
  load_required host names s = (ok, s') ->
  exists evs, Forall is_resolve evs /\
    if ok then os_log s' = evs ++ os_log s
    else handle s <> 0 -> os_log s' = EvClose (handle s) :: evs ++ os_log s.
Proof.
  induction names as [|n rest IH]; intros s ok s'; cbn [load_required].
  - intros [= <- <-]. exists []. split; [constructor|done].
  - destruct (decide (view_chars n ∈ pointer_offset_map)) as [Hin|Hin].
    + pose proof (load_single_function_log host (data n) (view_chars n) true s) as Lg.
      pose proof (load_single_function_frame host (data n) (view_chars n) true s) as (Fh & _).
      destruct (load_single_function host (data n) (view_chars n) true s) as [[|] s1]; simpl in *.
      * intros Hrest. destruct (IH _ _ _ Hrest) as (evs & Hres & Hlog).
        exists (evs ++ [EvResolve (c_str (data n))]). split.
        { apply Forall_app. split; [done|]. by repeat constructor. }
        rewrite <- app_assoc. simpl. rewrite <- Lg, <- Fh. done.
      * intros [= <- <-]. exists [EvResolve (c_str (data n))]. split; [by repeat constructor|].
        intros Hh. destruct (unload_library_log s1) as [-> _]; [congruence|].
        rewrite Lg, Fh. done.
    + intros [= <- <-]. exists []. split; [constructor|]. intros Hh.
      set (s1 := set_message _ s).
      destruct (unload_library_log s1) as [-> _]; [by open_state s|].
      by open_state s.
Qed.

Lemma load_optional_log host names : forall s,
  exists evs, Forall is_resolve evs /\ os_log (load_optional host names s) = evs ++ os_log s.
Proof.
  induction names as [|n rest IH]; intros s; cbn [load_optional].
  - exists []. split; [constructor|done].
  - destruct (decide (slot s n = 0)) as [Hn|Hn]; [|apply IH].
    pose proof (load_single_function_log host n n false s) as Lg.
    destruct (load_single_function host n n false s) as [ok s1]. simpl in *.
    destruct (IH s1) as (evs & Hres & ->).
    exists (evs ++ [EvResolve (c_str n)]). split.
    + apply Forall_app. split; [done|]. by repeat constructor.
    + rewrite <- app_assoc. simpl. by rewrite Lg.
Qed.

Lemma version_ok_calls_nonempty env rmajor s : version_ok_calls env rmajor s <> [].
Proof. unfold version_ok_calls. case_decide; done. Qed.

Lemma load_functions_log host env rmajor rbugfix names s ok s' :
  load_functions host env rmajor rbugfix names s = Some (ok, s') ->
  exists queries later,
    Forall is_version_query queries /\ Forall is_resolve later /\
    (host_open host = 0 -> queries = []) /\ (queries = [] -> later = []) /\
    (ok = true -> queries <> []) /\
    os_log s' =
      (if ok then [EvAtExit env]
       else if decide (host_open host = 0) then [] else [EvClose (host_open host)])
      ++ later ++ queries
      ++ (if decide (host_open host = 0) then []
          else [EvResolve "avs_get_env_property"; EvResolve "avs_at_exit";
                EvResolve "avs_check_version"])
      ++ EvOpen (host_open host) :: os_log s.
Proof.
  unfold load_functions.
  destruct (open_library_spec host s) as (Oh & _ & _ & _ & _ & _ & _ & Ol).
  set (s1 := open_library host s) in *. clearbody s1.
  destruct (decide (handle s1 = 0)) as [H0|H0].
  { intros [= <- <-]. rewrite Oh in H0. exists [], [].
    split; [constructor|]. split; [constructor|]. split; [done|]. split; [done|].
    split; [done|]. rewrite !decide_True by done. simpl. rewrite <- Ol. by open_state s1. }
  rewrite Oh in H0. destruct (decide (host_open host = 0)) as [?|_]; [done|].
  pose proof (load_essentials_frame host s1) as (Fh & _).
  pose proof (load_essentials_log host s1) as Le.
  pose proof (load_essentials_slots host s1) as (_ & Sae & _).
  pose proof (load_essentials_result host s1) as R.
  destruct (load_essentials host s1) as [eok s2]. simpl in *.
  destruct eok; simpl.
  2:{ intros [= <- <-]. exists [], [].
      split; [constructor|]. split; [constructor|]. split; [done|]. split; [done|].
      split; [done|].
      destruct (unload_library_log s2) as [-> _]; [congruence|].
      rewrite Fh, Oh, Le, Ol. done. }
  destruct (version_ok host env rmajor rbugfix s2) as [[[vok major] bugfix]|]; [|done].
  simpl.
  destruct (version_check_logged env rmajor s2) as ((Qh & _) & _ & _ & _ & Ql).
  pose proof (version_ok_calls_queries env rmajor s2) as Hq.
  pose proof (version_ok_calls_nonempty env rmajor s2) as Hne.
  set (queries := version_ok_calls env rmajor s2) in *. clearbody queries.
  set (sq := emit_all queries s2) in *. clearbody sq.
  destruct vok; simpl.
  2:{ intros [= <- <-]. exists queries, [].
      split; [done|]. split; [constructor|]. split; [done|]. split; [done|].
      split; [done|].
      set (s3 := set_message _ sq).
      destruct (unload_library_log s3) as [-> _]; [unfold s3; open_state sq; fields; congruence|].
      replace (handle s3) with (host_open host) by (unfold s3; open_state sq; fields; congruence).
      replace (os_log s3) with (os_log sq) by (unfold s3; by open_state sq).
      rewrite Ql, Le, Ol. simpl. rewrite <- ?app_assoc. done. }
  unfold load_after_version.
  destruct (load_required host names sq) as [rok s3] eqn:E.
  destruct (load_required_log _ _ _ _ _ E) as (evs & Hres & Hlog). destruct rok.
  - destruct (load_optional_log host known s3) as (evs' & Hres' & Lo).
    unfold register_cleanup. case_decide; [done|]. simpl. intros [= <- <-].
    exists queries, (evs' ++ evs).
    split; [done|]. split; [by rewrite Forall_app|]. split; [done|]. split; [done|].
    split; [done|].
    change (os_log (set_message "" (set_initialized true
              (emit (EvAtExit env) (load_optional host known s3)))))
      with (EvAtExit env :: os_log (load_optional host known s3)).
    rewrite Lo, Hlog, Ql, Le, Ol. simpl. rewrite <- ?app_assoc. done.
  - intros [= <- <-]. exists queries, evs.
    split; [done|]. split; [done|]. split; [done|]. split; [done|]. split; [done|].
    rewrite Hlog by congruence.
    rewrite Qh, Fh, Oh, Ql, Le, Ol. simpl. rewrite <- ?app_assoc. done.
Qed.


(** ** What a failed call reports *)

Lemma unload_library_message s : message (unload_library s) = message s.
Proof. unfold unload_library. case_decide; [done|]. by open_state s. Qed.

(** X3. With no library to open, a first caller gets null and the message
    that names the platform's library file; the open is the only library
    call, and the call leaves the table and the flag as they are. *)
Theorem library_not_found_reported host env rmajor rbugfix names s :
  ref_count_ s = 0 -> host_open host = 0 ->
  exists s', get_api host env rmajor rbugfix names s = Some (null_table, s') /\
    message s' = "Failed to load avisynth library (" +:+ AVS_LIB_NAME platform
                   +:+ "). Is Avisynth+ installed correctly?" /\
    os_log s' = EvOpen 0 :: os_log s /\
    ref_count_ s' = 0 /\ handle s' = 0 /\ g_avs_api s' = null_table /\
    table s' = table s /\ initialized s' = initialized s.
Proof.
  intros Hc Ho. unfold get_api. rewrite Hc, decide_True by done. simpl.
  unfold load_functions.
  change (handle (open_library host ?x)) with (host_open host).
  rewrite decide_True by done. simpl. eexists. split; [reflexivity|].
  change (0 + 1) with 1. rewrite wrap_long_one. change (1 - 1) with 0.
  rewrite wrap_long_zero. unfold open_library, library_not_found_message.
  open_state s. fields. rewrite Ho. by repeat split.
Qed.

Lemma load_essentials_failure host s :
  (load_essentials host s).1 = false ->
  message (load_essentials host s).2 =
    "Failed to load required function: " +:+
    (if decide (host_sym host "avs_at_exit" = 0) then "avs_at_exit" else "avs_check_version").
Proof.
  unfold load_essentials.
  pose proof (load_single_function_message host "avs_check_version" "avs_check_version" true s) as M1.
  pose proof (load_single_function_result host "avs_check_version" "avs_check_version" true s) as R1.
  destruct (load_single_function host "avs_check_version" _ true s) as [ok1 s1].
  pose proof (load_single_function_message host "avs_at_exit" "avs_at_exit" true s1) as M2.
  pose proof (load_single_function_result host "avs_at_exit" "avs_at_exit" true s1) as R2.
  destruct (load_single_function host "avs_at_exit" _ true s1) as [ok2 s2].
  pose proof (load_single_function_message host "avs_get_env_property" "avs_get_env_property" false s2) as M3.
  pose proof (load_single_function_result host "avs_get_env_property" "avs_get_env_property" false s2) as R3.
  destruct (load_single_function host "avs_get_env_property" _ false s2) as [ok3 s3].
  simpl in *. subst ok3. rewrite M3.
  destruct (decide (host_sym host "avs_at_exit" = 0)) as [Hae|Hae].
  - rewrite bool_decide_eq_true_2 in R2 by done. subst ok2. by rewrite M2.
  - rewrite bool_decide_eq_false_2 in R2 by done. subst ok2. simpl in M2.
    destruct ok1; [done|]. intros _. by rewrite M2, M1.
Qed.

(** X4. When the library opens but a required bootstrap symbol is
    missing, all three bootstrap resolutions are still made, in order;
    then the handle is closed and the caller gets null. The message names
    [avs_at_exit] when that one is missing, whether or not
    [avs_check_version] is missing too, and [avs_check_version]
    otherwise. *)
Theorem missing_bootstrap_symbol_reported host env rmajor rbugfix names s :
  ref_count_ s = 0 -> host_open host <> 0 ->
  host_sym host "avs_check_version" = 0 \/ host_sym host "avs_at_exit" = 0 ->
  exists s', get_api host env rmajor rbugfix names s = Some (null_table, s') /\
    message s' = "Failed to load required function: " +:+
      (if decide (host_sym host "avs_at_exit" = 0) then "avs_at_exit"
       else "avs_check_version") /\
    os_log s' = EvClose (host_open host) :: EvResolve "avs_get_env_property" ::
                EvResolve "avs_at_exit" :: EvResolve "avs_check_version" ::
                EvOpen (host_open host) :: os_log s /\
    ref_count_ s' = 0 /\ unloaded s'.
Proof.
  intros Hc Ho Hmiss. unfold get_api. rewrite Hc, decide_True by done. simpl.
  unfold load_functions.
  change (handle (open_library host ?x)) with (host_open host).
  rewrite decide_False by done.
  set (s1 := open_library host _).
  pose proof (load_essentials_frame host s1) as (Fh & _ & Fc & _).
  pose proof (load_essentials_log host s1) as Le.
  pose proof (load_essentials_result host s1) as R.
  pose proof (load_essentials_failure host s1) as M.
  destruct (load_essentials host s1) as [eok s2]. simpl in *.
  destruct eok; [exfalso; destruct (proj1 R eq_refl); tauto|]. simpl.
  eexists. split; [reflexivity|].
  assert (handle s2 = host_open host) as Hh by (rewrite Fh; unfold s1; by open_state s).
  destruct (unload_library_closed s2) as (U & _ & C & _); [congruence|].
  destruct (unload_library_log s2) as (L & _); [congruence|].
  set (s3 := unload_library s2) in *.
  assert (message s3 = message s2) as M3 by apply unload_library_message.
  assert (ref_count_ s2 = 1) as C2.
  { rewrite Fc. unfold s1. change (0 + 1) with 1. rewrite wrap_long_one. by open_state s. }
  clearbody s3. rewrite C, C2. change (1 - 1) with 0. rewrite wrap_long_zero.
  destruct U as (Uh & Ut & Ui & Ug). open_state s3. unfold unloaded. fields.
  split; [rewrite M3; by apply M|]. split.
  { rewrite L, Hh, Le. unfold s1. by open_state s. }
  by repeat split.
Qed.

Lemma load_required_missing host pre name post : forall s,
  Forall (resolvable host) pre -> view_chars name ∈ known ->
  host_sym host (c_str (data name)) = 0 ->
  exists s1, frame s s1 /\
    message s1 = "Failed to load required function: " +:+ c_str (data name) /\
    load_required host (pre ++ name :: post) s = (false, unload_library s1).
Proof.
  induction pre as [|n rest IH]; intros s Hall Hin Hsym; simpl.
  - rewrite decide_True by (by apply elem_of_pointer_offset_map).
    pose proof (load_single_function_frame host (data name) (view_chars name) true s) as F.
    pose proof (load_single_function_result host (data name) (view_chars name) true s) as R.
    pose proof (load_single_function_message host (data name) (view_chars name) true s) as M.
    destruct (load_single_function host (data name) (view_chars name) true s) as [ok s1].
    simpl in *.
    rewrite bool_decide_eq_true_2 in R by done. subst ok. eauto.
  - inversion Hall as [|? ? [Hn Hs] Hrest]; subst.
    rewrite decide_True by (by apply elem_of_pointer_offset_map).
    pose proof (load_single_function_frame host (data n) (view_chars n) true s) as F.
    pose proof (load_single_function_result host (data n) (view_chars n) true s) as R.
    destruct (load_single_function host (data n) (view_chars n) true s) as [ok s1]. simpl in *.
    rewrite bool_decide_eq_false_2 in R by done. subst ok. simpl.
    destruct (IH s1 Hrest Hin Hsym) as (s2 & F' & Hm & ->).
    exists s2. split; [eauto using frame_trans|done].
Qed.

(** X5. When the load sequence gets to the required views and the first
    one that fails is a listed view whose [data()] C string the host does
    not export, the caller gets null, the message names that C string
    (the characters from the start of the view to the NUL of its buffer,
    which go past the end of a view that is not a whole string), and the
    handle is closed; the views after it are not looked at. *)
Theorem missing_required_symbol_reported host env rmajor rbugfix pre name post s :
  ref_count_ s = 0 -> host_open host <> 0 ->
  host_sym host "avs_check_version" <> 0 -> host_sym host "avs_at_exit" <> 0 ->
  host_satisfies host env rmajor rbugfix ->
  Forall (resolvable host) pre -> view_chars name ∈ known ->
  host_sym host (c_str (data name)) = 0 ->
  exists s', get_api host env rmajor rbugfix (pre ++ name :: post) s = Some (null_table, s') /\
    message s' = "Failed to load required function: " +:+ c_str (data name) /\
    ref_count_ s' = 0 /\ unloaded s' /\
    exists earlier, os_log s' = EvClose (host_open host) :: earlier.
Proof.
  intros Hc Ho Hcv Hae Hv Hpre Hin Hsym.
  unfold get_api. rewrite Hc, decide_True by done. simpl.
  destruct (load_functions_version_stage host env rmajor rbugfix (pre ++ name :: post)
              (set_ref_count (wrap_long platform (0 + 1)) s) Ho Hcv Hae)
    as (ok & major & bugfix & _ & Verdict & _ & L).
  assert (ok = true) as -> by tauto. rewrite L. clear L.
  set (s2 := after_version_check host _ _ _).
  assert (handle s2 = host_open host /\ ref_count_ s2 = 1) as [Hh2 C2].
  { unfold s2, after_version_check.
    destruct (version_check_logged env rmajor (at_version_check host
      (set_ref_count (wrap_long platform (0 + 1)) s))) as ((-> & _ & -> & _) & _).
    unfold at_version_check.
    destruct (load_essentials_frame host (open_library host
      (set_ref_count (wrap_long platform (0 + 1)) s))) as (-> & _ & -> & _).
    change (0 + 1) with 1. rewrite wrap_long_one. by open_state s. }
  clearbody s2. unfold load_after_version.
  destruct (load_required_missing host pre name post s2 Hpre Hin Hsym)
    as (s1 & (Hh & _ & Fc & _) & Hm & ->).
  simpl. eexists. split; [reflexivity|].
  destruct (unload_library_closed s1) as (U & _ & C1 & _); [congruence|].
  destruct (unload_library_log s1) as (Lg & _); [congruence|].
  pose proof (unload_library_message s1) as M1.
  set (s3 := unload_library s1) in *. clearbody s3.
  rewrite C1, Fc, C2. change (1 - 1) with 0. rewrite wrap_long_zero.
  destruct U as (Uh & Ut & Ui & Ug). open_state s3. unfold unloaded. fields.
  split; [congruence|]. split; [done|]. split; [by repeat split|].
  exists (os_log s1). by rewrite Lg, Hh, Hh2.
Qed.

(** X6. Whether a first call succeeds is decided by the host and the
    arguments alone: it succeeds exactly when the library opens, both
    required bootstrap symbols resolve, the version is sufficient and
    every required view is listed and the host exports the C string at
    its [data()]. Neither the state the loader is in nor a listed name
    that is not required and that the host lacks makes it fail. *)
Theorem first_call_succeeds_iff host env rmajor rbugfix names s :
  ref_count_ s = 0 ->
  (exists s', get_api host env rmajor rbugfix names s = Some (instance_table, s')) <->
  load_succeeds host env rmajor rbugfix names.
Proof.
  intros Hc.
  destruct (get_api_first host env rmajor rbugfix names s Hc) as (r & s' & E & _ & Hres).
  destruct r.
  - destruct Hres as (Hn & _). split; [|tauto]. intros (s1 & E1). congruence.
  - destruct Hres as (Hs & _). split; [done|]. eauto.
Qed.

(** X7. A call that returns null as a first caller, or as a later caller
    of an initialised loader, leaves a message, so [get_last_error] then
    returns that message (cut at 299 characters) and not the fallback
    text. *)
Theorem failed_call_records_message host env rmajor rbugfix names s s' :
  ref_count_ s = 0 \/ initialized s = true ->
  get_api host env rmajor rbugfix names s = Some (null_table, s') ->
  message s' <> "" /\
  (get_last_error s').1 = string_take 299 (c_str (message s')).
Proof.
  intros Hcase Hcall.
  assert (message s' <> "") as Hm.
  { destruct (decide (ref_count_ s = 0)) as [Hc|Hc].
    - destruct (get_api_first host env rmajor rbugfix names s Hc) as (r & s1 & E & _ & Hres).
      rewrite Hcall in E. injection E as <- <-. apply Hres.
    - destruct Hcase as [?|Hi]; [done|]. rewrite get_api_later in Hcall by done.
      destruct (version_ok host env rmajor rbugfix s) as [[[[|] major] bugfix]|];
        simpl in Hcall; try done.
      injection Hcall as <-. rewrite unload_library_message.
      open_state s. fields. apply version_error_msg_nonempty. }
  split; [done|].
  unfold get_last_error. rewrite decide_False by done. cbn [fst].
  change (300 - 1)%nat with 299%nat. apply read_c_string_strncpy.
Qed.

(** ** Calls that find the loader not initialised *)

Lemma get_api_backs_off host env rmajor rbugfix names s :
  ref_count_ s <> 0 -> - LONG_MAX platform - 1 <= ref_count_ s <= LONG_MAX platform ->
  initialized s = false ->
  get_api host env rmajor rbugfix names s = Some (null_table, s).
Proof.
  intros Hc Hrange Hi. unfold get_api. rewrite decide_False by done.
  change (initialized (set_ref_count _ s)) with (initialized s). rewrite Hi.
  do 2 f_equal. unfold cleanup_callback.
  change (ref_count_ (set_ref_count ?n s)) with n.
  assert (wrap_long platform (wrap_long platform (ref_count_ s + 1) - 1) = ref_count_ s)
    as Hback.
  { replace (wrap_long platform (ref_count_ s + 1) - 1)
      with (wrap_long platform (ref_count_ s + 1) + -1) by lia.
    rewrite wrap_long_add. replace (ref_count_ s + 1 + -1) with (ref_count_ s) by lia.
    apply wrap_long_id. lia. }
  rewrite decide_False.
  - rewrite Hback. by open_state s.
  - intros H1. rewrite H1 in Hback. change (1 - 1) with 0 in Hback.
    rewrite wrap_long_zero in Hback. lia.
Qed.

(** X8. While the count is not 0 and the loader is not initialised (after
    a stricter caller has forced an unload, or after one teardown too
    many), every call backs off: it returns null and leaves the state as
    it is, so no sequence of [get_api] calls alone ever loads the library
    again. *)
Theorem stuck_while_count_nonzero s :
  ref_count_ s <> 0 -> - LONG_MAX platform - 1 <= ref_count_ s <= LONG_MAX platform ->
  initialized s = false ->
  (forall host env rmajor rbugfix names,
     get_api host env rmajor rbugfix names s = Some (null_table, s)) /\
  (forall ops, Forall is_get_api ops -> run ops s = Some s).
Proof.
  intros Hc Hrange Hi.
  split; [intros; by apply get_api_backs_off|].
  induction ops as [|o ops IH]; intros Hall; [done|].
  inversion Hall as [|? ? Ho Hrest]; subst. destruct o; try done.
  simpl. rewrite get_api_backs_off by done. simpl. by apply IH.
Qed.

(** X16. A teardown notification that arrives while the count is 0 does
    not unload anything: it takes the count to -1 and leaves the loader
    instance as it is. With the loader not initialised, every call after
    it returns null without loading, even against a host that would
    satisfy it. *)
Theorem teardown_at_zero_disables_loader s :
  ref_count_ s = 0 -> initialized s = false ->
  ref_count_ (cleanup_callback s) = -1 /\
  instance_ (cleanup_callback s) = instance_ s /\
  os_log (cleanup_callback s) = os_log s /\
  forall host env rmajor rbugfix names,
    get_api host env rmajor rbugfix names (cleanup_callback s) =
    Some (null_table, cleanup_callback s).
Proof.
  intros Hc Hi.
  assert (cleanup_callback s = set_ref_count (-1) s) as ->.
  { unfold cleanup_callback. rewrite Hc, decide_False by done.
    change (0 - 1) with (-1). rewrite wrap_long_id; [done|].
    pose proof LONG_MAX_large. lia. }
  split; [done|]. split; [done|]. split; [done|]. intros.
  apply get_api_backs_off; [done| |done].
  simpl. pose proof LONG_MAX_large. lia.
Qed.

(** ** Handle, flag and accessor over a run *)

Lemma step_preserves_coupled o s s' n :
  consistent s -> coupled s -> count_within n s -> n < LONG_MAX platform ->
  step o s = Some s' -> coupled s'.
Proof.
  intros (Hinit & Hnull & Hzero) [Hready Hbal] [Hlo Hhi] Hn.
  destruct o as [host env rmajor rbugfix names| |]; simpl.
  - destruct (get_api host env rmajor rbugfix names s) as [[r s1]|] eqn:E; [|done].
    simpl. intros [= <-]. unfold coupled.
    destruct (decide (ref_count_ s = 0)) as [Hc|Hc].
    { destruct (get_api_first host env rmajor rbugfix names s Hc) as (r' & s2 & E' & _ & Hres).
      rewrite E in E'. injection E' as <- <-.
      rewrite decide_True in Hbal by (apply Hzero; lia).
      destruct r.
      - destruct Hres as (_ & _ & Hh & _ & _ & Hl & _).
        split; [done|]. rewrite decide_True by done. lia.
      - destruct Hres as ((Ho & _) & _ & Hh & Hi & _ & Hg & Hl & _).
        split; [done|]. rewrite decide_False by congruence. lia. }
    destruct (initialized s) eqn:Hi.
    + destruct (Hinit eq_refl) as (_ & Hh & _ & _).
      rewrite decide_False in Hbal by done.
      rewrite get_api_later in E by done.
      pose proof (open_balance_queries _ (os_log s) (version_ok_calls_queries env rmajor s))
        as Hq.
      destruct (version_ok host env rmajor rbugfix s) as [[[[|] major] bugfix]|];
        simpl in E; try done; injection E as <- <-.
      * split; [by open_state s|]. rewrite decide_False by (by open_state s).
        rewrite <- Hbal, <- Hq. by open_state s.
      * set (s2 := set_message _ _).
        assert (handle s2 = handle s /\
                os_log s2 = version_ok_calls env rmajor s ++ os_log s) as [H2 L2]
          by (unfold s2; by open_state s).
        destruct (unload_library_closed s2) as ((Uh & _) & _); [congruence|].
        destruct (unload_library_log s2) as (L & _); [congruence|].
        split; [done|]. rewrite decide_True by done. rewrite L, L2. simpl. lia.
    + unfold get_api in E. rewrite decide_False in E by done.
      change (initialized (set_ref_count _ s)) with (initialized s) in E. rewrite Hi in E.
      injection E as <- <-. unfold cleanup_callback.
      change (ref_count_ (set_ref_count ?n s)) with n.
      rewrite (wrap_long_id (ref_count_ s + 1)) by lia.
      rewrite decide_False by lia. open_state s. fields.
      split; [intros Hx; by destruct (Hready Hx)|done].
  - intros [= <-]. unfold coupled, cleanup_callback.
    destruct (decide (ref_count_ s = 1)) as [Hc|Hc]; [|open_state s; fields; done].
    destruct (decide (handle s = 0)) as [Hh|Hh].
    + rewrite unload_library_noop by done. open_state s. fields.
      split; [done|]. by rewrite decide_True.
    + set (s2 := set_ref_count _ s).
      destruct (unload_library_closed s2) as ((Uh & _) & _); [done|].
      destruct (unload_library_log s2) as (L & _); [done|].
      split; [done|]. rewrite decide_True by done. rewrite L. simpl.
      change (os_log s2) with (os_log s). lia.
  - intros [= <-]. unfold get_last_error.
    destruct (decide (message s = "")); cbn [snd]; [by split|].
    generalize (strncpy (message s) (300 - 1) ++ [zero]). intros buf.
    unfold coupled. open_state s. fields. by split.
Qed.

Lemma run_preserves_coupled ops : forall s s' n,
  consistent s -> coupled s -> count_within n s ->
  n + Z.of_nat (length ops) <= LONG_MAX platform ->
  run ops s = Some s' -> consistent s' /\ coupled s'.
Proof.
  induction ops as [|o ops IH]; intros s s' n Hcons Hcoup Hcount Hn; simpl.
  - by intros [= <-].
  - simpl length in Hn.
    destruct (step_preserves o s n) as (s1 & E & Hcons1 & Hcount1); [done|done|lia|].
    rewrite E. simpl. intros Hrun.
    apply (IH s1 s' (n + 1)); [done| |done|lia|done].
    apply (step_preserves_coupled o s s1 n); [done|done|done|lia|done].
Qed.

(** X9. Any sequence of calls, teardowns and error queries from the
    initial state (up to [LONG_MAX] of them) runs without a call through a
    null function pointer, and the loader ends in one of two states. Either it holds no handle: then the table is empty, the
    flag and the shared accessor are cleared, and every handle that was
    opened has been closed. Or it holds a handle: then it is initialised,
    the shared accessor points at the table, no message is stored, the
    count is at least 1, and exactly one handle is open. *)
Theorem loader_is_unloaded_or_ready ops :
  Z.of_nat (length ops) <= LONG_MAX platform ->
  exists s, run ops initial_process = Some s /\
    ((handle s = 0 /\ unloaded s /\ open_balance (os_log s) = 0) \/
     (handle s <> 0 /\ initialized s = true /\ g_avs_api s = instance_table /\
      message s = "" /\ 1 <= ref_count_ s /\ open_balance (os_log s) = 1)).
Proof.
  intros Hn. destruct initial_process_consistent as [Hcons Hcount].
  destruct (run_preserves ops initial_process 0 Hcons Hcount) as (s & Hrun & _); [lia|].
  exists s. split; [done|].
  assert (coupled initial_process) as Hcoup by (split; [done|reflexivity]).
  destruct (run_preserves_coupled ops initial_process s 0 Hcons Hcoup Hcount)
    as ((Hinit & Hnull & _) & Hready & Hbal); [lia|done|].
  destruct (decide (handle s = 0)) as [Hh|Hh].
  - left. split; [done|]. split; [by apply Hnull|done].
  - right. destruct (Hready Hh) as [Hi Hg]. destruct (Hinit Hi) as (Hm & _ & Hc & _).
    by repeat split.
Qed.

(** ** The static buffer *)

Lemma unload_library_buffer s :
  static_error_buffer (unload_library s) = static_error_buffer s.
Proof. unfold unload_library. case_decide; [done|]. by open_state s. Qed.

Lemma cleanup_callback_buffer s :
  static_error_buffer (cleanup_callback s) = static_error_buffer s.
Proof.
  unfold cleanup_callback. case_decide; [|done]. by rewrite unload_library_buffer.
Qed.

Lemma get_api_buffer host env rmajor rbugfix names s r s' :
  get_api host env rmajor rbugfix names s = Some (r, s') ->
  static_error_buffer s' = static_error_buffer s.
Proof.
  intros E. destruct (decide (ref_count_ s = 0)) as [Hc|Hc].
  - destruct (get_api_first host env rmajor rbugfix names s Hc) as (r' & s2 & E' & B & _).
    congruence.
  - destruct (initialized s) eqn:Hi.
    + rewrite get_api_later in E by done.
      destruct (version_ok host env rmajor rbugfix s) as [[[[|] major] bugfix]|];
        simpl in E; try done; injection E as <- <-; [done|].
      by rewrite unload_library_buffer.
    + unfold get_api in E. rewrite decide_False in E by done.
      change (initialized (set_ref_count _ s)) with (initialized s) in E. rewrite Hi in E.
      injection E as <- <-. by rewrite cleanup_callback_buffer.
Qed.

Lemma run_buffer ops : forall s s',
  Forall (fun o => ~ is_get_last_error o) ops ->
  run ops s = Some s' -> static_error_buffer s' = static_error_buffer s.
Proof.
  induction ops as [|o ops IH]; intros s s' Hall; simpl.
  - by intros [= <-].
  - inversion Hall as [|? ? Ho Hrest]; subst.
    destruct (step o s) as [s1|] eqn:E; [|done]. simpl. intros Hrun.
    rewrite (IH _ _ Hrest Hrun). destruct o as [host env rmajor rbugfix names| |]; simpl in *.
    + destruct (get_api host env rmajor rbugfix names s) as [[r s2]|] eqn:E2; [|done].
      injection E as <-. eapply get_api_buffer; eauto.
    + injection E as <-. apply cleanup_callback_buffer.
    + by destruct Ho.
Qed.

(** X10. Only [get_last_error] writes the static buffer. The text behind
    the pointer it has returned for a stored message therefore stays the
    same over any later [get_api] calls and teardowns, whatever they
    record: it shows the newer message only once [get_last_error] is
    called again. Calling [get_last_error] twice in a row gives the same
    text and the same state. *)
Theorem error_text_kept_until_next_query ops s s' :
  message s <> "" ->
  Forall (fun o => ~ is_get_last_error o) ops ->
  run ops (get_last_error s).2 = Some s' ->
  read_c_string (static_error_buffer s') = (get_last_error s).1 /\
  get_last_error (get_last_error s).2 = get_last_error s.
Proof.
  intros Hm Hall Hrun. split.
  - rewrite (run_buffer _ _ _ Hall Hrun). unfold get_last_error.
    rewrite decide_False by done. done.
  - unfold get_last_error at 2 3. rewrite decide_False by done. cbn [snd].
    unfold get_last_error.
    change (message (set_static_error_buffer ?b s)) with (message s).
    rewrite decide_False by done. done.
Qed.

(** ** Later callers of a loaded library *)

Lemma first_success_bootstrap_slots host env rmajor rbugfix names s s' k :
  ref_count_ s = 0 ->
  get_api host env rmajor rbugfix names s = Some (instance_table, s') ->
  Forall whole names ->
  k ∈ bootstrap_names -> slot s' k = host_sym host k.
Proof.
  intros Hc Hcall Hwhole Hk. rewrite Forall_forall in Hwhole.
  destruct (get_api_first host env rmajor rbugfix names s Hc) as (r & s1 & E & _ & Hres).
  rewrite Hcall in E. injection E as <- <-.
  destruct Hres as ((Ho & Hcv & Hae & Hv & Hall) & _).
  unfold get_api in Hcall. rewrite Hc, decide_True in Hcall by done. simpl in Hcall.
  destruct (load_functions_version_stage host env rmajor rbugfix names
              (set_ref_count (wrap_long platform (0 + 1)) s) Ho Hcv Hae)
    as (ok & major & bugfix & _ & Verdict & _ & L).
  assert (ok = true) as -> by tauto. rewrite L in Hcall. clear L.
  set (s2 := after_version_check host _ _ _) in Hcall.
  assert (slot s2 k = host_sym host k) as S2.
  { unfold s2, after_version_check.
    destruct (version_check_logged env rmajor (at_version_check host
      (set_ref_count (wrap_long platform (0 + 1)) s))) as (_ & _ & _ & -> & _).
    unfold at_version_check. rewrite load_essentials_slot. by rewrite decide_True. }
  clearbody s2.
  destruct (load_after_version host env names s2) as [[[|] s3]|] eqn:E3;
    simpl in Hcall; try done.
  injection Hcall as <-.
  change (slot (set_g_avs_api instance_table s3) k) with (slot s3 k).
  rewrite (load_after_version_slot _ _ _ _ _ k E3), S2 by auto.
  assert (c_str k = k) as ->.
  { revert Hk. unfold bootstrap_names. intros Hb.
    repeat (apply elem_of_cons in Hb as [->|Hb]; [done|]). by apply elem_of_nil in Hb. }
  repeat case_decide; done.
Qed.

(** X11. After a first call, with whole strings as required names, has
    loaded the library, a second call against the same host and
    environment with a requirement that is no stricter returns the table
    too, whatever views it lists as required: it opens and resolves
    nothing, its only calls into the library being the version queries of
    its check (the two property queries with the property getter, the one
    version check without); it leaves the loader instance as it is and
    takes the count to 2. With the property getter "no stricter" is a
    lower major number, or the same one with a bugfix number no higher;
    without it, the same major number with any bugfix number. *)
Theorem laxer_caller_shares_table host env rmajor rbugfix names rmajor' rbugfix' names' s s1 :
  ref_count_ s = 0 ->
  get_api host env rmajor rbugfix names s = Some (instance_table, s1) ->
  Forall whole names ->
  (if decide (host_sym host "avs_get_env_property" = 0) then rmajor' = rmajor
   else laxer rmajor' rbugfix' rmajor rbugfix) ->
  exists s2, get_api host env rmajor' rbugfix' names' s1 = Some (instance_table, s2) /\
    instance_ s2 = instance_ s1 /\
    os_log s2 =
      (if decide (host_sym host "avs_get_env_property" = 0)
       then [EvCheckVersion env rmajor']
       else [EvGetEnvProperty env AVS_AEP_INTERFACE_BUGFIX;
             EvGetEnvProperty env AVS_AEP_INTERFACE_VERSION]) ++ os_log s1 /\
    ref_count_ s2 = 2.
Proof.
  intros Hc Hcall Hwhole Hlax.
  destruct (get_api_success _ _ _ _ _ _ _ Hcall) as (C & Hi & _).
  rewrite Hc in C. change (0 + 1) with 1 in C. rewrite wrap_long_one in C.
  destruct (get_api_first host env rmajor rbugfix names s Hc) as (r & s1' & E & _ & Hres).
  rewrite Hcall in E. injection E as <- <-.
  destruct Hres as ((_ & Hcv & _ & Hv & _) & _).
  assert (slot s1 "avs_get_env_property" = host_sym host "avs_get_env_property") as Sgp.
  { apply (first_success_bootstrap_slots host env rmajor rbugfix names s); [done..|].
    unfold bootstrap_names. rewrite !elem_of_cons. tauto. }
  assert (slot s1 "avs_check_version" = host_sym host "avs_check_version") as Scv.
  { apply (first_success_bootstrap_slots host env rmajor rbugfix names s); [done..|].
    unfold bootstrap_names. rewrite !elem_of_cons. tauto. }
  assert (requirement_met host env rmajor' rbugfix' s1) as Hmet.
  { unfold requirement_met, host_satisfies in *. rewrite Sgp, Scv.
    destruct (decide (host_sym host "avs_get_env_property" = 0)).
    - subst. done.
    - unfold version_satisfied, laxer in *. lia. }
  destruct (version_ok_met _ _ _ _ _ Hmet) as (major & bugfix & V).
  rewrite get_api_later by (done || lia). rewrite V. simpl.
  eexists. split; [reflexivity|]. rewrite C. change (1 + 1) with 2.
  rewrite wrap_long_id by (pose proof LONG_MAX_large; lia).
  split; [by open_state s1|]. split; [|by open_state s1].
  rewrite <- Sgp. by open_state s1.
Qed.

Lemma all_succeed_log cs s s' :
  all_succeed cs s s' ->
  0 < ref_count_ s -> ref_count_ s + Z.of_nat (length cs) <= LONG_MAX platform ->
  exists queries, Forall is_version_query queries /\ os_log s' = queries ++ os_log s.
Proof.
  induction 1 as [s|c cs s s1 s2 Hcall Hrest IH]; intros Hpos Hmax.
  { exists []. by split. }
  simpl length in *. unfold get_api_call in Hcall.
  destruct (get_api_success _ _ _ _ _ _ _ Hcall) as (C & _ & _ & _ & _ & Hlater).
  rewrite wrap_long_id in C by (pose proof LONG_MAX_large; lia).
  destruct Hlater as [_ L]; [lia|].
  destruct IH as (queries & Hq & ->); [lia|lia|].
  exists (queries ++ version_ok_calls (call_env c) (call_major c) s).
  split; [|by rewrite L, app_assoc].
  apply Forall_app. split; [done|]. apply version_ok_calls_queries.
Qed.

(** X12. However many successful calls follow the first one, the teardown
    callback is registered once only (one call through [avs_at_exit]), by
    the first caller and with its environment: before the registration the log holds the first caller's
    open, symbol resolutions and version queries, and after it nothing
    but the version queries of the later callers, each of which adds a
    reference. The count is the number of calls, the number of
    registrations is one. *)
Theorem teardown_registered_once c cs s s' :
  ref_count_ s = 0 ->
  Z.of_nat (length (c :: cs)) <= LONG_MAX platform ->
  all_succeed (c :: cs) s s' ->
  ref_count_ s' = Z.of_nat (length (c :: cs)) /\
  exists queries evs,
    Forall is_version_query queries /\
    Forall (fun e => is_resolve e \/ is_version_query e) evs /\
    os_log s' =
      queries ++ EvAtExit (call_env c) :: evs ++ EvOpen (host_open (call_host c)) :: os_log s.
Proof.
  intros Hc Hmax Hall.
  destruct (all_succeed_count _ _ _ Hall) as [C _]; [lia|lia|lia|].
  rewrite Hc in C. split; [done|].
  inversion Hall as [|? ? ? s1 ? Hcall Hrest]; subst. unfold get_api_call in Hcall.
  destruct (get_api_success _ _ _ _ _ _ _ Hcall) as (C1 & _).
  rewrite Hc in C1. change (0 + 1) with 1 in C1. rewrite wrap_long_one in C1.
  simpl length in Hmax.
  destruct (all_succeed_log _ _ _ Hrest) as (queries & Hq & ->); [lia|lia|].
  unfold get_api in Hcall. rewrite Hc, decide_True in Hcall by done. simpl in Hcall.
  destruct (load_functions (call_host c) (call_env c) (call_major c) (call_bugfix c)
              (call_names c) _) as [[ok s2]|] eqn:E; [|done].
  apply load_functions_log in E as (first & later & Hfirst & Hres & _ & _ & _ & Hlog).
  destruct ok; simpl in Hcall; [|done]. injection Hcall as <-.
  exists queries, (later ++ first ++
    (if decide (host_open (call_host c) = 0) then []
     else [EvResolve "avs_get_env_property"; EvResolve "avs_at_exit";
           EvResolve "avs_check_version"])).
  split; [done|]. split.
  - rewrite !Forall_app. split; [eapply Forall_impl; [exact Hres|]; by left|].
    split; [eapply Forall_impl; [exact Hfirst|]; by right|].
    case_decide; repeat constructor; by left.
  - change (os_log (set_g_avs_api instance_table s2)) with (os_log s2).
    rewrite Hlog. simpl. by rewrite <- !app_assoc.
Qed.

(** X15. After a first call, with whole strings as required names, has
    loaded the library, a call whose requirement the host does not meet
    gets null and takes the library away from the first caller: after its
    version queries the handle is closed, the table emptied, the flag and
    the shared accessor cleared. The message recorded is the version
    message with the required numbers: with the property getter it gives
    the host's numbers too, without it it says the installed version is
    too old. The reference the call added stays, so the count is 2 with
    nothing loaded. *)
Theorem stricter_caller_forces_unload host env rmajor rbugfix names env' rmajor' rbugfix'
    names' s s1 :
  ref_count_ s = 0 ->
  get_api host env rmajor rbugfix names s = Some (instance_table, s1) ->
  Forall whole names ->
  ~ host_satisfies host env' rmajor' rbugfix' ->
  exists s2, get_api host env' rmajor' rbugfix' names' s1 = Some (null_table, s2) /\
    unloaded s2 /\ ref_count_ s2 = 2 /\
    message s2 =
      (if decide (host_sym host "avs_get_env_property" = 0)
       then snprintf 200 (degraded_version_message rmajor' rbugfix')
       else snprintf 200 (precise_version_message rmajor' rbugfix'
                            (host_major host env') (host_bugfix host env'))) /\
    os_log s2 =
      EvClose (host_open host) ::
      (if decide (host_sym host "avs_get_env_property" = 0)
       then [EvCheckVersion env' rmajor']
       else [EvGetEnvProperty env' AVS_AEP_INTERFACE_BUGFIX;
             EvGetEnvProperty env' AVS_AEP_INTERFACE_VERSION]) ++ os_log s1.
Proof.
  intros Hc Hcall Hwhole Hnot.
  destruct (get_api_success _ _ _ _ _ _ _ Hcall) as (C & Hi & _ & _ & Hfirst & _).
  destruct (Hfirst Hc) as (Hh & Ho & _).
  rewrite Hc in C. change (0 + 1) with 1 in C. rewrite wrap_long_one in C.
  destruct (get_api_first host env rmajor rbugfix names s Hc) as (r & s1' & E & _ & Hres).
  rewrite Hcall in E. injection E as <- <-.
  destruct Hres as ((_ & Hcv & _) & _).
  assert (slot s1 "avs_get_env_property" = host_sym host "avs_get_env_property") as Sgp.
  { apply (first_success_bootstrap_slots host env rmajor rbugfix names s); [done..|].
    unfold bootstrap_names. rewrite !elem_of_cons. tauto. }
  assert (slot s1 "avs_check_version" = host_sym host "avs_check_version") as Scv.
  { apply (first_success_bootstrap_slots host env rmajor rbugfix names s); [done..|].
    unfold bootstrap_names. rewrite !elem_of_cons. tauto. }
  destruct (get_api_later_mismatch host env' rmajor' rbugfix' names' s1)
    as (s2 & E & U & _ & C2 & L & M).
  - lia.
  - done.
  - congruence.
  - left. congruence.
  - intros Hmet. apply Hnot. unfold requirement_met, host_satisfies in *.
    rewrite Sgp in Hmet. destruct (decide (host_sym host "avs_get_env_property" = 0)); tauto.
  - exists s2. split; [done|]. split; [done|]. split.
    { rewrite C2, C. change (1 + 1) with 2.
      apply wrap_long_id. pose proof LONG_MAX_large. lia. }
    unfold version_ok_calls in L. rewrite Sgp in L, M. split; [done|].
    by rewrite L, Hh.
Qed.

End Properties.

Section ValueGuardProperties.

Context {values : ValueModel}.

(** ** The value guard *)

Lemma release_if_owned_held s g :
  can_release s -> release_if_owned s g = Some (held g).
Proof.
  intros [Hg Hs]. unfold release_if_owned, held, avs_release_value.
  destruct (owns_value_ g); [|done].
  rewrite decide_False by congruence. by rewrite decide_False.
Qed.

(** X13. Over any sequence of [reset], [release] and [get] calls on a
    guard, ended by its destructor, each value the guard came to own (the
    one it held at the start, then every non-void value given to [reset])
    is disposed of exactly once and in that order, either released to the
    host or handed back by [release()]; nothing else is released. With the
    API loaded and [avs_release_value] resolved no call in the sequence
    goes through a null pointer. *)
Theorem guard_disposes_each_value_once s ops g :
  can_release s ->
  exists ds, guard_life s ops g = Some ds /\ disposed <$> ds = held g ++ taken ops.
Proof.
  intros Hs. revert g. induction ops as [|o ops IH]; intros g; simpl.
  - unfold guard_destroy. rewrite release_if_owned_held by done. simpl.
    eexists. split; [reflexivity|]. rewrite app_nil_r, <- list_fmap_compose.
    apply list_fmap_id.
  - destruct o as [v| | |]; simpl; unfold guard_reset_to, guard_reset;
      rewrite ?release_if_owned_held by done; simpl.
    + match goal with |- context [guard_life s ops ?g'] =>
        destruct (IH g') as (ds & -> & Hds) end.
      simpl. eexists. split; [reflexivity|].
      rewrite fmap_app, Hds, <- list_fmap_compose. unfold held at 2. simpl.
      change (disposed ∘ Released) with (@id AVS_Value). rewrite list_fmap_id.
      by case_decide.
    + match goal with |- context [guard_life s ops ?g'] =>
        destruct (IH g') as (ds & -> & Hds) end.
      simpl. eexists. split; [reflexivity|].
      rewrite fmap_app, Hds, <- list_fmap_compose.
      change (disposed ∘ Released) with (@id AVS_Value). by rewrite list_fmap_id.
    + match goal with |- context [guard_life s ops ?g'] =>
        destruct (IH g') as (ds & -> & Hds) end.
      simpl. eexists. split; [reflexivity|].
      rewrite fmap_app, Hds. unfold held. simpl. by destruct (owns_value_ g).
    + destruct (IH g) as (ds & -> & Hds). simpl. eexists. split; [reflexivity|done].
Qed.

(** X14. Moving a guard, by construction or by assignment, hands over
    what it held and leaves it holding nothing: destroying the moved-from
    guard releases nothing, destroying the new one releases what the old
    one held, and an assignment first releases what the target held. No
    value is released twice and none is dropped. *)
Theorem guard_move_transfers_ownership s this other :
  can_release s ->
  guard_destroy s (guard_move other).2 = Some [] /\
  guard_destroy s (guard_move other).1 = Some (held other) /\
  exists this' other',
    guard_move_assign s this other = Some (this', other', held this) /\
    guard_destroy s other' = Some [] /\
    guard_destroy s this' = Some (held other).
Proof.
  intros Hs. unfold guard_move, guard_move_assign, guard_destroy.
  rewrite !release_if_owned_held by done. simpl.
  split; [done|]. split; [done|]. eexists _, _. split; [reflexivity|].
  by rewrite !release_if_owned_held.
Qed.

End ValueGuardProperties.

(** ** Concrete runs *)

(** C1. The host is at (10, 0); the first call, with requirement (10, 0),
    succeeds and leaves the count at 1. The second call requires (11, 0):
    it returns null, records the version message and unloads (handle,
    table, flag and shared accessor are cleared, the handle is closed), but
    the reference it added stays: the count is 2, not 0. A third call,
    with the requirement (10, 0) the host meets, then finds the count
    above zero and the loader not initialised, and gets null. *)
Theorem stricter_caller_unloads_but_keeps_count :
  exists s1 s2,
    @get_api linux_example host_10_0 7 10 0 [literal "avs_get_frame"] initial_process
      = Some (instance_table, s1) /\
    ref_count_ s1 = 1 /\
    @get_api linux_example host_10_0 7 11 0 [literal "avs_get_frame"] s1
      = Some (null_table, s2) /\
    unloaded s2 /\
    head (os_log s2) = Some (EvClose 4096) /\
    message s2 = "Avisynth C API Error: Plugin requires interface >= 11.0, but found 10.0." /\
    ref_count_ s2 = 2 /\ ref_count_ s2 <> 0 /\
    @get_api linux_example host_10_0 7 10 0 [literal "avs_get_frame"] s2 = Some (null_table, s2).
Proof.
  exists state_loaded, state_after_mismatch.
  split; [vm_compute; reflexivity|]. split; [reflexivity|].
  split; [vm_compute; reflexivity|].
  split; [by vm_compute|]. split; [reflexivity|]. split; [reflexivity|].
  split; [reflexivity|]. split; [vm_compute; discriminate|]. vm_compute. reflexivity.
Qed.

(** C7, as stated, fails: with no library installed, a first caller that
    requires a name outside the list gets null, but the message recorded
    is the one about the library, not the internal error naming the
    symbol. *)
Lemma unknown_required_name_message_counterexample :
  ~ (forall (build : Build) host env rmajor rbugfix names bad s,
       ref_count_ s = 0 -> bad ∈ names -> view_chars bad ∉ known ->
       exists s', get_api host env rmajor rbugfix names s = Some (null_table, s') /\
         message s' =
           "Internal Error: Unknown function requested as required: " +:+ view_chars bad /\
         handle s' = 0).
Proof.
  intros H.
  destruct (H linux_example host_absent 7 10 0 [literal "avs_totally_made_up"]
              (literal "avs_totally_made_up") initial_process) as (s' & E & M & _).
  - reflexivity.
  - apply elem_of_cons. by left.
  - intros Hin. apply (bool_decide_pack _) in Hin. vm_compute in Hin. exact Hin.
  - vm_compute in E. injection E as <-. vm_compute in M. discriminate M.
Qed.

(** ** Instances of the theorems *)

Lemma first_caller_failure_rolls_back_witness :
  ref_count_ state_after_ops = 0 /\ table state_after_ops = ∅ /\
  initialized state_after_ops = false /\
  exists s',
    @get_api linux_example host_10_0 7 10 0 [cut_view] state_after_ops = Some (null_table, s') /\
    @load_failure linux_example host_10_0 7 10 0 [cut_view] /\
    ref_count_ s' = ref_count_ state_after_ops /\ unloaded s' /\
    open_balance (os_log s') = open_balance (os_log state_after_ops).
Proof.
  assert (ref_count_ state_after_ops = 0) as H1 by (vm_compute; reflexivity).
  assert (table state_after_ops = ∅) as H2 by (vm_compute; reflexivity).
  assert (initialized state_after_ops = false) as H3 by (vm_compute; reflexivity).
  split; [exact H1|]. split; [exact H2|]. split; [exact H3|].
  destruct (@first_caller_failure_rolls_back linux_example host_10_0 7 10 0
              [cut_view] state_after_ops H1 H2 H3) as (r & s' & E & Hiff & Hroll).
  destruct r; [|vm_compute in E; discriminate E].
  exists s'. split; [exact E|]. split; [apply Hiff; reflexivity|]. apply Hroll. reflexivity.
Defined.

Lemma later_caller_backs_off_when_not_initialized_witness :
  0 < ref_count_ state_after_mismatch /\
  ref_count_ state_after_mismatch <= LONG_MAX (@platform linux_example) /\
  initialized state_after_mismatch = false /\
  @get_api linux_example host_10_0 7 10 0 [literal "avs_get_frame"] state_after_mismatch =
    Some (null_table, state_after_mismatch).
Proof.
  assert (0 < ref_count_ state_after_mismatch) as H1 by (vm_compute; reflexivity).
  assert (ref_count_ state_after_mismatch <= LONG_MAX (@platform linux_example)) as H2
    by (vm_compute; discriminate).
  assert (initialized state_after_mismatch = false) as H3 by (vm_compute; reflexivity).
  split; [exact H1|]. split; [exact H2|]. split; [exact H3|].
  destruct (@later_caller_backs_off_when_not_initialized linux_example host_10_0 7 10 0
              [literal "avs_get_frame"] state_after_mismatch H1 H2 H3) as [E B].
  rewrite E, B. reflexivity.
Defined.

Lemma later_caller_reuses_loaded_table_witness :
  0 < ref_count_ state_loaded /\ initialized state_loaded = true /\
  @requirement_met host_10_0 8 10 0 state_loaded /\
  exists s', @get_api linux_example host_10_0 8 10 0 [] state_loaded = Some (instance_table, s') /\
    os_log s' = EvGetEnvProperty 8 AVS_AEP_INTERFACE_BUGFIX ::
                EvGetEnvProperty 8 AVS_AEP_INTERFACE_VERSION :: os_log state_loaded /\
    instance_ s' = instance_ state_loaded.
Proof.
  assert (0 < ref_count_ state_loaded) as H1 by (vm_compute; reflexivity).
  assert (initialized state_loaded = true) as H2 by (vm_compute; reflexivity).
  assert (@requirement_met host_10_0 8 10 0 state_loaded) as H3.
  { unfold requirement_met. rewrite decide_False by (vm_compute; discriminate).
    right. split; [vm_compute; reflexivity|vm_compute; discriminate]. }
  split; [exact H1|]. split; [exact H2|]. split; [exact H3|].
  destruct (@later_caller_reuses_loaded_table linux_example host_10_0 8 10 0 []
              state_loaded H1 H2 H3) as (s' & E & L & _ & I & _).
  exists s'. split; [exact E|]. split; [exact L|exact I].
Defined.

Lemma load_then_teardown_restores_initial_witness :
  ref_count_ initial_process = 0 /\
  @get_api linux_example host_10_0 7 10 0 [literal "avs_get_frame"] initial_process =
    Some (instance_table, state_loaded) /\
  instance_ (@cleanup_callback linux_example state_loaded) = initial_loader /\
  ref_count_ (@cleanup_callback linux_example state_loaded) = 0.
Proof.
  assert (@get_api linux_example host_10_0 7 10 0 [literal "avs_get_frame"] initial_process =
          Some (instance_table, state_loaded)) as H by (vm_compute; reflexivity).
  split; [reflexivity|]. split; [exact H|].
  destruct (@load_then_teardown_restores_initial linux_example host_10_0 7 10 0
              [literal "avs_get_frame"] initial_process state_loaded eq_refl H)
    as (_ & I & C & _).
  split; [exact I|exact C].
Defined.

Lemma count_follows_calls_and_teardowns_witness :
  ref_count_ initial_process = 0 /\
  Z.of_nat (length two_calls) <= LONG_MAX (@platform linux_example) /\
  @all_succeed linux_example two_calls initial_process state_shared /\
  ref_count_ state_shared = 2 /\
  ref_count_ (@teardowns linux_example 1 state_shared) = 1 /\
  ref_count_ (@teardowns linux_example 2 state_shared) = 0 /\
  instance_ (@teardowns linux_example 2 state_shared) = initial_loader /\
  g_avs_api (@teardowns linux_example 2 state_shared) = null_table.
Proof.
  assert (Z.of_nat (length two_calls) <= LONG_MAX (@platform linux_example)) as H2
    by (vm_compute; discriminate).
  assert (@all_succeed linux_example two_calls initial_process state_shared) as H3.
  { apply all_succeed_cons with (s1 := state_loaded); [vm_compute; reflexivity|].
    apply all_succeed_cons with (s1 := state_shared); [vm_compute; reflexivity|].
    apply all_succeed_nil. }
  split; [reflexivity|]. split; [exact H2|]. split; [exact H3|].
  destruct (@count_follows_calls_and_teardowns linux_example two_calls initial_process
              state_shared eq_refl H2 H3) as (C & _ & C0 & Hlast).
  destruct Hlast as (_ & C1 & I & G & _); [simpl; lia|].
  split; [exact C|]. split; [exact C1|]. split; [exact C0|]. split; [exact I|exact G].
Defined.

Lemma version_negotiation_witness :
  host_open host_without_getter <> 0 /\
  host_sym host_without_getter "avs_check_version" <> 0 /\
  host_sym host_without_getter "avs_at_exit" <> 0 /\
  (exists s', @load_functions linux_example host_without_getter 7 10 0 [] initial_process
                = Some (false, s') /\
     unloaded s' /\ message s' = snprintf 200 (degraded_version_message 10 0)) /\
  @load_functions linux_example host_without_getter 7 6 0 [] initial_process =
    @load_after_version linux_example host_without_getter 7 []
      (after_version_check host_without_getter 7 6 initial_process).
Proof.
  assert (host_open host_without_getter <> 0) as H1 by (vm_compute; discriminate).
  assert (host_sym host_without_getter "avs_check_version" <> 0) as H2
    by (vm_compute; discriminate).
  assert (host_sym host_without_getter "avs_at_exit" <> 0) as H3
    by (vm_compute; discriminate).
  split; [exact H1|]. split; [exact H2|]. split; [exact H3|]. split.
  - destruct (@version_negotiation linux_example host_without_getter 7 10 0 []
                initial_process H1 H2 H3) as [_ Hfallback].
    destruct Hfallback as [_ [Hfail _]]; [vm_compute; reflexivity|].
    destruct Hfail as [_ Hfail]; [vm_compute; discriminate|]. exact Hfail.
  - destruct (@version_negotiation linux_example host_without_getter 7 6 0 []
                initial_process H1 H2 H3) as [_ Hfallback].
    destruct Hfallback as [Hpass _]; [vm_compute; reflexivity|].
    destruct Hpass as [_ Hpass]; [vm_compute; reflexivity|]. exact Hpass.
Defined.

Lemma unknown_required_name_fails_load_witness :
  ref_count_ initial_process = 0 /\
  ("avs_totally_made_up" ∉ @known linux_example) /\
  exists s',
    @get_api linux_example host_10_0 7 10 0
      ([literal "avs_get_frame"] ++ literal "avs_totally_made_up" :: [literal "avs_at_exit"]) initial_process
      = Some (null_table, s') /\
    handle s' = 0 /\
    message s' =
      "Internal Error: Unknown function requested as required: avs_totally_made_up" /\
    exists earlier, os_log s' = EvClose (host_open host_10_0) :: earlier.
Proof.
  assert ("avs_totally_made_up" ∉ @known linux_example) as H2.
  { intros Hin. apply (bool_decide_pack _) in Hin. vm_compute in Hin. exact Hin. }
  split; [reflexivity|]. split; [exact H2|].
  destruct (@unknown_required_name_fails_load linux_example host_10_0 7 10 0
              [literal "avs_get_frame"] (literal "avs_totally_made_up") [literal "avs_at_exit"] initial_process
              eq_refl H2) as (s' & E & _ & Hh & _ & _ & Hreach).
  exists s'. split; [exact E|]. split; [exact Hh|].
  apply Hreach.
  - vm_compute. discriminate.
  - vm_compute. discriminate.
  - vm_compute. discriminate.
  - unfold host_satisfies. rewrite decide_False by (vm_compute; discriminate).
    right. split; [vm_compute; reflexivity|vm_compute; discriminate].
  - constructor; [|constructor]. split.
    + apply (bool_decide_unpack _). vm_compute. exact I.
    + vm_compute. discriminate.
Defined.

Lemma successful_call_clears_error_witness :
  Z.of_nat (length example_ops) < LONG_MAX (@platform linux_example) /\
  @run linux_example example_ops initial_process = Some state_after_ops /\
  message state_after_ops <> "" /\
  (exists s', @get_api linux_example host_10_0 7 10 0 [literal "avs_get_frame"] state_after_ops
                = Some (instance_table, s') /\
     (get_last_error s').1 = "Unknown Avisynth C API loading error.").
Proof.
  assert (Z.of_nat (length example_ops) < LONG_MAX (@platform linux_example)) as H1
    by (vm_compute; reflexivity).
  assert (@run linux_example example_ops initial_process = Some state_after_ops) as H2
    by (vm_compute; reflexivity).
  split; [exact H1|]. split; [exact H2|]. split; [vm_compute; discriminate|].
  destruct (@get_api linux_example host_10_0 7 10 0 [literal "avs_get_frame"] state_after_ops)
    as [[[|] s']|] eqn:E; [vm_compute in E; discriminate E| |vm_compute in E; discriminate E].
  exists s'. split; [reflexivity|].
  destruct (@successful_call_clears_error linux_example example_ops state_after_ops
              host_10_0 7 10 0 [literal "avs_get_frame"] s' H1 H2 E) as (_ & _ & F). exact F.
Defined.

(** ** Instances of the further theorems *)

Lemma loaded_table_matches_host_witness :
  ref_count_ initial_process = 0 /\ table initial_process = ∅ /\
  @get_api linux_example host_with_props 7 10 0 [cut_view] initial_process =
    Some (instance_table, state_with_props) /\
  slot state_with_props "avs_get_frame" = host_sym host_with_props "avs_get_frame_props_rw" /\
  slot state_with_props "avs_at_exit" = host_sym host_with_props "avs_at_exit" /\
  slot state_with_props "avs_add_function" = 0 /\
  slot state_with_props "avs_totally_made_up" = 0.
Proof.
  assert (@get_api linux_example host_with_props 7 10 0 [cut_view] initial_process =
          Some (instance_table, state_with_props)) as H by (vm_compute; reflexivity).
  split; [reflexivity|]. split; [reflexivity|]. split; [exact H|].
  destruct (@loaded_table_matches_host linux_example host_with_props 7 10 0 [cut_view]
              initial_process state_with_props eq_refl eq_refl H) as [Last Whole].
  assert (forall k, k <> "avs_get_frame" ->
            forall v, v ∈ [cut_view] -> view_chars v = k -> whole v) as Other.
  { intros k Hk v Hv Hvk. apply elem_of_cons in Hv as [->|Hv].
    - destruct Hk. symmetry. exact Hvk.
    - apply elem_of_nil in Hv. destruct Hv. }
  split.
  { apply (Last [] cut_view [] eq_refl). intros w Hw. apply elem_of_nil in Hw. destruct Hw. }
  assert ("avs_at_exit" <> "avs_get_frame") as N1 by (intros N; discriminate N).
  assert ("avs_add_function" <> "avs_get_frame") as N2 by (intros N; discriminate N).
  assert ("avs_totally_made_up" <> "avs_get_frame") as N3 by (intros N; discriminate N).
  split; [rewrite (Whole "avs_at_exit" (Other _ N1)); vm_compute; reflexivity|].
  split; [rewrite (Whole "avs_add_function" (Other _ N2)); vm_compute; reflexivity|].
  rewrite (Whole "avs_totally_made_up" (Other _ N3)); vm_compute; reflexivity.
Defined.


Lemma library_not_found_reported_witness :
  ref_count_ initial_process = 0 /\ host_open host_absent = 0 /\
  exists s', @get_api linux_example host_absent 7 10 0 [literal "avs_get_frame"] initial_process
               = Some (null_table, s') /\
    message s' = "Failed to load avisynth library (libavisynth.so). Is Avisynth+ installed correctly?" /\
    os_log s' = [EvOpen 0].
Proof.
  split; [reflexivity|]. split; [reflexivity|].
  destruct (@library_not_found_reported linux_example host_absent 7 10 0 [literal "avs_get_frame"]
              initial_process eq_refl eq_refl) as (s' & E & M & L & _).
  exists s'. split; [exact E|]. split; [exact M|exact L].
Defined.

Lemma missing_bootstrap_symbol_reported_witness :
  ref_count_ initial_process = 0 /\ host_open host_no_bootstrap <> 0 /\
  (host_sym host_no_bootstrap "avs_check_version" = 0 \/
   host_sym host_no_bootstrap "avs_at_exit" = 0) /\
  exists s', @get_api linux_example host_no_bootstrap 7 10 0 [] initial_process
               = Some (null_table, s') /\
    message s' = "Failed to load required function: avs_at_exit" /\ unloaded s'.
Proof.
  assert (host_open host_no_bootstrap <> 0) as H1 by (vm_compute; discriminate).
  assert (host_sym host_no_bootstrap "avs_check_version" = 0 \/
          host_sym host_no_bootstrap "avs_at_exit" = 0) as H2 by (left; reflexivity).
  split; [reflexivity|]. split; [exact H1|]. split; [exact H2|].
  destruct (@missing_bootstrap_symbol_reported linux_example host_no_bootstrap 7 10 0 []
              initial_process eq_refl H1 H2) as (s' & E & M & _ & _ & U).
  exists s'. split; [exact E|]. split; [exact M|exact U].
Defined.

Lemma missing_required_symbol_reported_witness :
  ref_count_ initial_process = 0 /\ host_open host_10_0 <> 0 /\
  host_sym host_10_0 "avs_check_version" <> 0 /\ host_sym host_10_0 "avs_at_exit" <> 0 /\
  host_satisfies host_10_0 7 10 0 /\
  Forall (@resolvable linux_example host_10_0) [literal "avs_at_exit"] /\
  (view_chars cut_view ∈ @known linux_example) /\
  host_sym host_10_0 (c_str (data cut_view)) = 0 /\
  exists s', @get_api linux_example host_10_0 7 10 0
               ([literal "avs_at_exit"] ++ cut_view :: [literal "avs_add_function"])
               initial_process
               = Some (null_table, s') /\
    message s' = "Failed to load required function: avs_get_frame_props_rw".
Proof.
  assert (host_open host_10_0 <> 0) as H1 by (vm_compute; discriminate).
  assert (host_sym host_10_0 "avs_check_version" <> 0) as H2 by (vm_compute; discriminate).
  assert (host_sym host_10_0 "avs_at_exit" <> 0) as H3 by (vm_compute; discriminate).
  assert (host_satisfies host_10_0 7 10 0) as H4.
  { unfold host_satisfies. rewrite decide_False by (vm_compute; discriminate).
    right. split; [vm_compute; reflexivity|vm_compute; discriminate]. }
  assert (Forall (@resolvable linux_example host_10_0) [literal "avs_at_exit"]) as H5.
  { constructor; [|constructor]. split.
    - apply (bool_decide_unpack _). vm_compute. exact I.
    - vm_compute. discriminate. }
  assert (view_chars cut_view ∈ @known linux_example) as H6.
  { apply (bool_decide_unpack _). vm_compute. exact I. }
  assert (host_sym host_10_0 (c_str (data cut_view)) = 0) as H7 by (vm_compute; reflexivity).
  split; [reflexivity|]. split; [exact H1|]. split; [exact H2|]. split; [exact H3|].
  split; [exact H4|]. split; [exact H5|]. split; [exact H6|]. split; [exact H7|].
  destruct (@missing_required_symbol_reported linux_example host_10_0 7 10 0
              [literal "avs_at_exit"] cut_view [literal "avs_add_function"] initial_process
              eq_refl H1 H2 H3 H4 H5 H6 H7) as (s' & E & M & _).
  exists s'. split; [exact E|exact M].
Defined.

Lemma first_call_succeeds_iff_witness :
  ref_count_ state_after_ops = 0 /\
  ((exists s', @get_api linux_example host_10_0 7 10 0 [literal "avs_get_frame"] state_after_ops
                 = Some (instance_table, s')) <->
   @load_succeeds linux_example host_10_0 7 10 0 [literal "avs_get_frame"]).
Proof.
  assert (ref_count_ state_after_ops = 0) as H by (vm_compute; reflexivity).
  split; [exact H|].
  apply (@first_call_succeeds_iff linux_example host_10_0 7 10 0 [literal "avs_get_frame"]
           state_after_ops H).
Defined.

Lemma failed_call_records_message_witness :
  (ref_count_ state_loaded = 0 \/ initialized state_loaded = true) /\
  @get_api linux_example host_10_0 7 11 0 [literal "avs_get_frame"] state_loaded =
    Some (null_table, state_after_mismatch) /\
  message state_after_mismatch <> "" /\
  (get_last_error state_after_mismatch).1 =
    string_take 299 (c_str (message state_after_mismatch)).
Proof.
  assert (ref_count_ state_loaded = 0 \/ initialized state_loaded = true) as H1
    by (right; vm_compute; reflexivity).
  assert (@get_api linux_example host_10_0 7 11 0 [literal "avs_get_frame"] state_loaded =
          Some (null_table, state_after_mismatch)) as H2 by (vm_compute; reflexivity).
  split; [exact H1|]. split; [exact H2|].
  apply (@failed_call_records_message linux_example host_10_0 7 11 0 [literal "avs_get_frame"]
           state_loaded state_after_mismatch H1 H2).
Defined.

Lemma stuck_while_count_nonzero_witness :
  ref_count_ state_after_mismatch <> 0 /\
  (- LONG_MAX (@platform linux_example) - 1 <= ref_count_ state_after_mismatch
     <= LONG_MAX (@platform linux_example)) /\
  initialized state_after_mismatch = false /\
  @run linux_example
    [OpGetApi host_10_0 7 10 0 [literal "avs_get_frame"]; OpGetApi host_10_0 8 9 0 []]
    state_after_mismatch = Some state_after_mismatch.
Proof.
  assert (ref_count_ state_after_mismatch <> 0) as H1 by (vm_compute; discriminate).
  assert (- LONG_MAX (@platform linux_example) - 1 <= ref_count_ state_after_mismatch
            <= LONG_MAX (@platform linux_example)) as H2
    by (split; vm_compute; discriminate).
  assert (initialized state_after_mismatch = false) as H3 by (vm_compute; reflexivity).
  split; [exact H1|]. split; [exact H2|]. split; [exact H3|].
  destruct (@stuck_while_count_nonzero linux_example state_after_mismatch H1 H2 H3) as [_ R].
  apply R. repeat constructor.
Defined.

Lemma loader_is_unloaded_or_ready_witness :
  Z.of_nat (length example_ops) <= LONG_MAX (@platform linux_example) /\
  exists s, @run linux_example example_ops initial_process = Some s /\
    ((handle s = 0 /\ unloaded s /\ open_balance (os_log s) = 0) \/
     (handle s <> 0 /\ initialized s = true /\ g_avs_api s = instance_table /\
      message s = "" /\ 1 <= ref_count_ s /\ open_balance (os_log s) = 1)).
Proof.
  assert (Z.of_nat (length example_ops) <= LONG_MAX (@platform linux_example)) as H1
    by (vm_compute; discriminate).
  split; [exact H1|].
  apply (@loader_is_unloaded_or_ready linux_example example_ops H1).
Defined.

Lemma error_text_kept_until_next_query_witness :
  message state_after_mismatch <> "" /\
  Forall (fun o => ~ is_get_last_error o) ops_after_query /\
  @run linux_example ops_after_query (get_last_error state_after_mismatch).2 =
    Some state_after_query /\
  message state_after_query <> message state_after_mismatch /\
  read_c_string (static_error_buffer state_after_query) =
    "Avisynth C API Error: Plugin requires interface >= 11.0, but found 10.0.".
Proof.
  assert (message state_after_mismatch <> "") as H1 by (vm_compute; discriminate).
  assert (Forall (fun o => ~ is_get_last_error o) ops_after_query) as H2.
  { repeat constructor; intros H; exact H. }
  assert (@run linux_example ops_after_query (get_last_error state_after_mismatch).2 =
          Some state_after_query) as H3 by (vm_compute; reflexivity).
  split; [exact H1|]. split; [exact H2|]. split; [exact H3|].
  split; [vm_compute; discriminate|].
  destruct (@error_text_kept_until_next_query linux_example ops_after_query
              state_after_mismatch state_after_query H1 H2 H3) as [T _].
  rewrite T. vm_compute. reflexivity.
Defined.

Lemma laxer_caller_shares_table_witness :
  ref_count_ initial_process = 0 /\
  @get_api linux_example host_10_0 7 10 0 [literal "avs_get_frame"] initial_process =
    Some (instance_table, state_loaded) /\
  Forall whole [literal "avs_get_frame"] /\
  (if decide (host_sym host_10_0 "avs_get_env_property" = 0) then 9 = 10
   else laxer 9 5 10 0) /\
  exists s2, @get_api linux_example host_10_0 7 9 5 [literal "avs_totally_made_up"] state_loaded
               = Some (instance_table, s2) /\
    os_log s2 = EvGetEnvProperty 7 AVS_AEP_INTERFACE_BUGFIX ::
                EvGetEnvProperty 7 AVS_AEP_INTERFACE_VERSION :: os_log state_loaded /\
    ref_count_ s2 = 2.
Proof.
  assert (@get_api linux_example host_10_0 7 10 0 [literal "avs_get_frame"] initial_process =
          Some (instance_table, state_loaded)) as H2 by (vm_compute; reflexivity).
  assert (Forall whole [literal "avs_get_frame"]) as Hw.
  { constructor; [vm_compute; reflexivity|constructor]. }
  assert (if decide (host_sym host_10_0 "avs_get_env_property" = 0) then 9 = 10
          else laxer 9 5 10 0) as H3.
  { rewrite decide_False by (vm_compute; discriminate). left. reflexivity. }
  split; [reflexivity|]. split; [exact H2|]. split; [exact Hw|]. split; [exact H3|].
  destruct (@laxer_caller_shares_table linux_example host_10_0 7 10 0 [literal "avs_get_frame"]
              9 5 [literal "avs_totally_made_up"] initial_process state_loaded eq_refl H2 Hw H3)
    as (s2 & E & _ & L & C).
  exists s2. split; [exact E|]. split; [exact L|exact C].
Defined.

Lemma teardown_registered_once_witness :
  ref_count_ initial_process = 0 /\
  Z.of_nat (length two_calls) <= LONG_MAX (@platform linux_example) /\
  @all_succeed linux_example two_calls initial_process state_shared /\
  ref_count_ state_shared = 2 /\
  exists queries evs,
    Forall is_version_query queries /\
    Forall (fun e => is_resolve e \/ is_version_query e) evs /\
    os_log state_shared = queries ++ EvAtExit 7 :: evs ++ [EvOpen 4096].
Proof.
  assert (Z.of_nat (length two_calls) <= LONG_MAX (@platform linux_example)) as H2
    by (vm_compute; discriminate).
  assert (@all_succeed linux_example two_calls initial_process state_shared) as H3.
  { apply all_succeed_cons with (s1 := state_loaded); [vm_compute; reflexivity|].
    apply all_succeed_cons with (s1 := state_shared); [vm_compute; reflexivity|].
    apply all_succeed_nil. }
  split; [reflexivity|]. split; [exact H2|]. split; [exact H3|].
  destruct (@teardown_registered_once linux_example _ _ initial_process state_shared
              eq_refl H2 H3) as (C & queries & evs & Hq & Hres & L).
  split; [exact C|]. exists queries, evs. split; [exact Hq|]. split; [exact Hres|exact L].
Defined.

Lemma guard_disposes_each_value_once_witness :
  can_release state_with_release /\
  exists ds, @guard_life example_values state_with_release example_guard_ops
               (guard_of (example_value 99 0 1)) = Some ds /\
    disposed <$> ds = [example_value 99 0 1; example_value 105 0 3; example_value 115 0 9].
Proof.
  assert (can_release state_with_release) as H.
  { split; [vm_compute; reflexivity|vm_compute; discriminate]. }
  split; [exact H|].
  destruct (@guard_disposes_each_value_once example_values state_with_release
              example_guard_ops (guard_of (example_value 99 0 1)) H) as (ds & E & D).
  exists ds. split; [exact E|]. rewrite D. vm_compute. reflexivity.
Defined.

Lemma guard_move_transfers_ownership_witness :
  can_release state_with_release /\
  exists this' other',
    @guard_move_assign example_values state_with_release (guard_of (example_value 99 0 1))
      (guard_of (example_value 105 0 3)) = Some (this', other', [example_value 99 0 1]) /\
    guard_destroy state_with_release other' = Some [] /\
    guard_destroy state_with_release this' = Some [example_value 105 0 3].
Proof.
  assert (can_release state_with_release) as H.
  { split; [vm_compute; reflexivity|vm_compute; discriminate]. }
  split; [exact H|].
  destruct (@guard_move_transfers_ownership example_values state_with_release
              (guard_of (example_value 99 0 1)) (guard_of (example_value 105 0 3)) H)
    as (_ & _ & this' & other' & E & D1 & D2).
  exists this', other'. split; [exact E|]. split; [exact D1|exact D2].
Defined.

Lemma teardown_at_zero_disables_loader_witness :
  ref_count_ state_after_ops = 0 /\ initialized state_after_ops = false /\
  ref_count_ (@cleanup_callback linux_example state_after_ops) = -1 /\
  @get_api linux_example host_10_0 7 10 0 [] (@cleanup_callback linux_example state_after_ops) =
    Some (null_table, @cleanup_callback linux_example state_after_ops).
Proof.
  assert (ref_count_ state_after_ops = 0) as H1 by (vm_compute; reflexivity).
  assert (initialized state_after_ops = false) as H2 by (vm_compute; reflexivity).
  split; [exact H1|]. split; [exact H2|].
  destruct (@teardown_at_zero_disables_loader linux_example state_after_ops H1 H2)
    as (C & _ & _ & R).
  split; [exact C|apply R].
Defined.

Lemma stricter_caller_forces_unload_witness :
  ref_count_ initial_process = 0 /\
  @get_api linux_example host_10_0 7 10 0 [literal "avs_get_frame"] initial_process =
    Some (instance_table, state_loaded) /\
  Forall whole [literal "avs_get_frame"] /\
  ~ host_satisfies host_10_0 8 10 1 /\
  exists s2, @get_api linux_example host_10_0 8 10 1 [] state_loaded = Some (null_table, s2) /\
    unloaded s2 /\ ref_count_ s2 = 2 /\
    message s2 = "Avisynth C API Error: Plugin requires interface >= 10.1, but found 10.0." /\
    os_log s2 = EvClose 4096 :: EvGetEnvProperty 8 AVS_AEP_INTERFACE_BUGFIX ::
                EvGetEnvProperty 8 AVS_AEP_INTERFACE_VERSION :: os_log state_loaded.
Proof.
  assert (@get_api linux_example host_10_0 7 10 0 [literal "avs_get_frame"] initial_process =
          Some (instance_table, state_loaded)) as H2 by (vm_compute; reflexivity).
  assert (Forall whole [literal "avs_get_frame"]) as Hw.
  { constructor; [vm_compute; reflexivity|constructor]. }
  assert (~ host_satisfies host_10_0 8 10 1) as H3.
  { unfold host_satisfies. rewrite decide_False by (vm_compute; discriminate).
    intros [H|[_ H]]; vm_compute in H; [discriminate H|]. apply H. reflexivity. }
  split; [reflexivity|]. split; [exact H2|]. split; [exact Hw|]. split; [exact H3|].
  destruct (@stricter_caller_forces_unload linux_example host_10_0 7 10 0 [literal "avs_get_frame"]
              8 10 1 [] initial_process state_loaded eq_refl H2 Hw H3)
    as (s2 & E & U & C & M & L).
  exists s2. split; [exact E|]. split; [exact U|]. split; [exact C|].
  split; [rewrite M; vm_compute; reflexivity|exact L].
Defined.
